(** * Cluster filter of the SV pipeline (filter_cluster_v6.0.py)

    A shallow embedding of [src/Deepvarient-filter/filter_cluster_v6.0.py]:
    the merge of the two chromosome length tables, the distance threshold
    derived from a density, and the streaming filtering pass of
    [process_vcf], together with the properties the specification states
    about them.

    Conventions of the embedding.
    - A text line is a [string] of 8-bit characters, the trailing newline
      included, as the file iterator yields it.  Python decodes the file as
      UTF-8; the embedding covers the ASCII range (a byte above 127 is
      neither a digit nor white space here, while [int] and [str.strip]
      also know the digits and the white space of Unicode).
    - Python integers are [Z]; the two counters only count up from zero and
      are [nat].
    - A dictionary is a [gmap string Z].
    - An uncaught exception is the [Raised] outcome of a call.
    - Python floats are idealised as real numbers: [math.log] is [ln] on
      the positive reals, [/] is real division, [int] truncates toward
      zero.  The float literals have the exact values of their doubles.
      What is proved of the thresholds is therefore proved of the exact
      quotient [-ln(1-p)/d]; the code has it up to rounding. *)

From Stdlib Require Import ZArith Reals Lra Lia Ascii String List Bool.
From stdpp Require Import gmap strings list fin_maps.

Local Open Scope Z_scope.

(** ** Exceptions *)

Inductive exn : Type :=
| IndexError
| ValueError.

Inductive outcome (A : Type) : Type :=
| Returned (a : A)
| Raised (e : exn).

Arguments Returned {A} a.
Arguments Raised {A} e.

(** ** Strings: [startswith], [split], [int] *)

Definition tab : ascii := Ascii.ascii_of_nat 9.
Definition newline : ascii := Ascii.ascii_of_nat 10.
Definition hash : ascii := Ascii.ascii_of_nat 35.

(** [line.startswith("#")] *)
Definition startswith_hash (line : string) : bool :=
  match line with
  | String c _ => Ascii.eqb c hash
  | EmptyString => false
  end.

(** [s.split('\t')]: cut at every tab; the result is never empty. *)
Fixpoint split_tab (s : string) : list string :=
  match s with
  | EmptyString => [EmptyString]
  | String c rest =>
      if Ascii.eqb c tab then EmptyString :: split_tab rest
      else match split_tab rest with
           | f :: fs => String c f :: fs
           | [] => [String c EmptyString]
           end
  end.

(** The characters for which [str.isspace] holds in the ASCII range; this
    is the white space that [str.strip] removes. *)
Definition is_space (c : ascii) : bool :=
  let n := Ascii.nat_of_ascii c in
  ((9 <=? n)%nat && (n <=? 13)%nat) || ((28 <=? n)%nat && (n <=? 32)%nat).

(** The white space that [int] skips on both sides of an ASCII literal:
    space, tab, newline, vertical tab, form feed and carriage return.  The
    separators 0x1c-0x1f are white space for [str.strip] but not for
    [int]. *)
Definition is_int_space (c : ascii) : bool :=
  let n := Ascii.nat_of_ascii c in
  ((9 <=? n)%nat && (n <=? 13)%nat) || (n =? 32)%nat.

Definition digit_of (c : ascii) : option Z :=
  let n := Ascii.nat_of_ascii c in
  if ((48 <=? n)%nat && (n <=? 57)%nat)%bool then Some (Z.of_nat (n - 48)) else None.

Definition underscore : ascii := Ascii.ascii_of_nat 95.

Fixpoint lstrip (s : string) : string :=
  match s with
  | String c rest => if is_space c then lstrip rest else s
  | EmptyString => EmptyString
  end.

Fixpoint all_space (s : string) : bool :=
  match s with
  | String c rest => is_space c && all_space rest
  | EmptyString => true
  end.

Fixpoint int_lstrip (s : string) : string :=
  match s with
  | String c rest => if is_int_space c then int_lstrip rest else s
  | EmptyString => EmptyString
  end.

Fixpoint int_all_space (s : string) : bool :=
  match s with
  | String c rest => is_int_space c && int_all_space rest
  | EmptyString => true
  end.

(** The digits of a decimal literal after its first digit, [acc] being the
    value read so far: digits, each optionally preceded by one underscore,
    then white space up to the end. *)
Fixpoint int_digits (acc : Z) (s : string) : option Z :=
  match s with
  | EmptyString => Some acc
  | String c rest =>
      match digit_of c with
      | Some d => int_digits (10 * acc + d) rest
      | None =>
          if Ascii.eqb c underscore then
            match rest with
            | String c' rest' =>
                match digit_of c' with
                | Some d => int_digits (10 * acc + d) rest'
                | None => None
                end
            | EmptyString => None
            end
          else if int_all_space s then Some acc else None
      end
  end.

Definition int_unsigned (s : string) : option Z :=
  match s with
  | String c rest =>
      match digit_of c with
      | Some d => int_digits d rest
      | None => None
      end
  | EmptyString => None
  end.

(** The value of a decimal literal: white space, an optional sign, digits
    with single underscores between them, white space. *)
Definition int_literal (s : string) : option Z :=
  match int_lstrip s with
  | String c rest =>
      if Ascii.eqb c (Ascii.ascii_of_nat 45) then Z.opp <$> int_unsigned rest
      else if Ascii.eqb c (Ascii.ascii_of_nat 43) then int_unsigned rest
      else int_unsigned (String c rest)
  | EmptyString => None
  end.

(** The number of digit characters of a string. *)
Fixpoint count_digits (s : string) : nat :=
  match s with
  | String c rest =>
      match digit_of c with
      | Some _ => S (count_digits rest)
      | None => count_digits rest
      end
  | EmptyString => 0%nat
  end.

(** [int(s)] for an ASCII string: [None] stands for [ValueError].  A
    literal of more than 4300 digits is refused, as CPython does by
    default since 3.11 ([sys.int_max_str_digits]).  Digits and white space
    outside the ASCII range, which [int] also accepts, are not covered. *)
Definition py_int (s : string) : option Z :=
  match int_literal s with
  | Some n => if (count_digits s <=? 4300)%nat then Some n else None
  | None => None
  end.

(** ** The filtering pass of [process_vcf] *)

(** The dictionary [{'line': .., 'chrom': .., 'pos': .., 'keep': ..}]. *)
Record variant : Type := Variant {
  line : string;
  chrom : string;
  pos : Z;
  keep : bool
}.

Definition set_keep (b : bool) (v : variant) : variant :=
  {| line := line v; chrom := chrom v; pos := pos v; keep := b |}.

(** What steps 1 and 2 of [process_vcf] (lines 164-173) hand to the
    filtering pass: the designated chromosome and the two thresholds. *)
Record config : Type := Config {
  sdr_chrom : string;
  thresh_sdr : Z;
  thresh_other : Z
}.

(** [thresh_sdr if chrom == args.sdr_chrom else thresh_other] *)
Definition current_thresh (cfg : config) (c : string) : Z :=
  if String.eqb c (sdr_chrom cfg) then thresh_sdr cfg else thresh_other cfg.

(** Standard output and the two counters. *)
Record sink : Type := Sink {
  printed : list string;
  kept_count : nat;
  removed_count : nat
}.

Record state : Type := State {
  buffer : list variant;
  out : sink
}.

Definition print (l : string) (o : sink) : sink :=
  {| printed := printed o ++ [l];
     kept_count := kept_count o;
     removed_count := removed_count o |}.

(** The emit-or-count block that the source repeats three times
    (lines 211-215, 223-227, 239-243). *)
Definition flush (o : sink) (v : variant) : sink :=
  if keep v then
    {| printed := printed o ++ [line v];
       kept_count := S (kept_count o);
       removed_count := removed_count o |}
  else
    {| printed := printed o;
       kept_count := kept_count o;
       removed_count := S (removed_count o) |}.

(** The accumulator of the loop over [buffer]: [new_buffer], the [keep]
    flag of [current_var], and the sink. *)
Record walk : Type := Walk {
  new_buffer : list variant;
  current_keep : bool;
  walk_out : sink
}.

(** The body of [for prev_var in buffer] (lines 209-232). *)
Definition visit (c : string) (p : Z) (thresh : Z) (w : walk) (prev_var : variant) : walk :=
  if negb (String.eqb (chrom prev_var) c) then
    {| new_buffer := new_buffer w;
       current_keep := current_keep w;
       walk_out := flush (walk_out w) prev_var |}
  else
    let dist := p - pos prev_var in
    if dist >? thresh then
      {| new_buffer := new_buffer w;
         current_keep := current_keep w;
         walk_out := flush (walk_out w) prev_var |}
    else
      {| new_buffer := new_buffer w ++ [set_keep false prev_var];
         current_keep := false;
         walk_out := walk_out w |}.

(** One parsed record arrives (lines 204-235): choose the threshold, walk
    the buffer, then append the record. *)
Definition feed (cfg : config) (st : state) (l c : string) (p : Z) : state :=
  let w := fold_left (visit c p (current_thresh cfg c)) (buffer st)
             {| new_buffer := []; current_keep := true; walk_out := out st |} in
  {| buffer := new_buffer w
                 ++ [{| line := l; chrom := c; pos := p; keep := current_keep w |}];
     out := walk_out w |}.

(** The [try] block (lines 196-201): [fields[0]], then [int(fields[1])].  Only
    [ValueError] is caught ([Returned None], the line is skipped); a
    missing second field raises [IndexError]. *)
Definition read_fields (l : string) : outcome (option (string * Z)) :=
  let fields := split_tab l in
  match fields !! 0%nat, fields !! 1%nat with
  | Some f0, Some f1 =>
      match py_int f1 with
      | Some p => Returned (Some (f0, p))
      | None => Returned None
      end
  | _, _ => Raised IndexError
  end.

(** The body of [for line in f] (lines 191-235). *)
Definition step (cfg : config) (st : state) (l : string) : outcome state :=
  if startswith_hash l then
    Returned {| buffer := buffer st; out := print l (out st) |}
  else
    match read_fields l with
    | Raised e => Raised e
    | Returned None => Returned st
    | Returned (Some (c, p)) => Returned (feed cfg st l c p)
    end.

Fixpoint run (cfg : config) (st : state) (lines : list string) : outcome state :=
  match lines with
  | [] => Returned st
  | l :: rest =>
      match step cfg st l with
      | Returned st' => run cfg st' rest
      | Raised e => Raised e
      end
  end.

Definition initial : state :=
  {| buffer := [];
     out := {| printed := []; kept_count := 0; removed_count := 0 |} |}.

(** The final loop that empties the buffer (lines 238-243). *)
Definition drain (st : state) : sink := fold_left flush (buffer st) (out st).

(** Step 3 of [process_vcf] (lines 186-245), on the lines of the input file
    and the thresholds of step 2: the lines printed and the two counts. *)
Definition process_vcf (cfg : config) (lines : list string) : outcome sink :=
  match run cfg initial lines with
  | Returned st => Returned (drain st)
  | Raised e => Raised e
  end.

(** ** Vocabulary of the specification for the filtering pass *)

Definition is_data (l : string) : bool := negb (startswith_hash l).

(** The record a line contributes, if any: a data line whose [try] block
    succeeds.  [keep] starts as [True]. *)
Definition record_of (l : string) : option variant :=
  if startswith_hash l then None
  else match read_fields l with
       | Returned (Some (c, p)) => Some {| line := l; chrom := c; pos := p; keep := true |}
       | _ => None
       end.

Definition records (lines : list string) : list variant := omap record_of lines.

(** Every data line has at least two tab-separated fields. *)
Definition two_fields (lines : list string) : bool :=
  forallb (fun l => startswith_hash l || (2 <=? length (split_tab l))%nat) lines.

Definition same_chrom (a b : variant) : bool := String.eqb (chrom a) (chrom b).

(** Same-chromosome records arrive in non-decreasing position order. *)
Fixpoint position_sorted (rs : list variant) : bool :=
  match rs with
  | [] => true
  | r :: rest =>
      forallb (fun r' => implb (same_chrom r r') (pos r <=? pos r')) rest
      && position_sorted rest
  end.

(** Any two records of one chromosome are farther apart than the threshold
    of that chromosome. *)
Fixpoint far_apart (cfg : config) (rs : list variant) : bool :=
  match rs with
  | [] => true
  | r :: rest =>
      forallb (fun r' => implb (same_chrom r r')
                           (Z.abs (pos r' - pos r) >? current_thresh cfg (chrom r'))) rest
      && far_apart cfg rest
  end.

(** The records of a chromosome form one block: once the stream has moved
    on to another chromosome, the earlier one does not come back. *)
Fixpoint chrom_contiguous (rs : list variant) : bool :=
  match rs with
  | [] => true
  | r :: rest =>
      match rest with
      | [] => true
      | r' :: _ => same_chrom r r' || forallb (fun x => negb (same_chrom r x)) rest
      end
      && chrom_contiguous rest
  end.

(** The header is contiguous and first: no [#] line after a data line. *)
Fixpoint headers_first (lines : list string) : bool :=
  match lines with
  | [] => true
  | l :: rest => if startswith_hash l then headers_first rest else forallb is_data rest
  end.

(** ** [calculate_dist_threshold] *)

(** [int(x)] of a float: truncation toward zero. *)
Definition int_of_float (x : R) : Z :=
  if Rlt_dec x 0 then Zceil x else Zfloor x.

(** [math.log(x)]: [ValueError] outside the positive reals. *)
Definition math_log (x : R) : outcome R :=
  if Rlt_dec 0 x then Returned (ln x) else Raised ValueError.

(** The literal [1e-9], with the exact value of that double,
    4835703278458517 / 2^82. *)
Definition epsilon : R := (4835703278458517 / 4835703278458516698824704)%R.

(** [calculate_dist_threshold] (lines 155-160) in exact arithmetic: the
    guard is the one of the code at every double, while the quotient is
    the real one, which the code only has up to the rounding of
    [1 - p_value], of [math.log] and of the division. *)
Definition calculate_dist_threshold (het p_value : R) (min_threshold : Z) : outcome Z :=
  if Rle_dec het epsilon then Returned min_threshold
  else match math_log (1 - p_value) with
       | Raised e => Raised e
       | Returned l =>
           let calc_thresh := int_of_float (- l / het)%R in
           Returned (Z.max calc_thresh min_threshold)
       end.

(** ** [get_combined_chrom_lengths] *)

(** The two tables are the results of [get_chrom_lengths_from_fai] and
    [get_chrom_lengths_from_vcf]; every header entry whose chromosome is
    not yet in [chrom_lens] is added to it. *)
Definition get_combined_chrom_lengths (fai vcf_chrom_lens : gmap string Z) : gmap string Z :=
  map_fold (fun c len (chrom_lens : gmap string Z) =>
              if decide (chrom_lens !! c = None) then <[c := len]> chrom_lens
              else chrom_lens)
           fai vcf_chrom_lens.

(** ** Auxiliary notions for the proofs *)

(** The test that sends [prev_var] to the conflict branch:
    same chromosome and [dist <= current_thresh]. *)
Definition conflicts (c : string) (p thresh : Z) (prev_var : variant) : bool :=
  String.eqb (chrom prev_var) c && negb (p - pos prev_var >? thresh).

(** [b] arrives while [a] is pending and does not conflict with it. *)
Definition clear (cfg : config) (a b : variant) : bool :=
  negb (conflicts (chrom b) (pos b) (current_thresh cfg (chrom b)) a).

(** Every record is clear of the record just before it. *)
Fixpoint well_spaced (cfg : config) (rs : list variant) : bool :=
  match rs with
  | a :: rest =>
      match rest with
      | b :: _ => clear cfg a b
      | [] => true
      end
      && well_spaced cfg rest
  | [] => true
  end.

(** The filtering pass on a stream of records. *)
Definition feed_record (cfg : config) (st : state) (v : variant) : state :=
  feed cfg st (line v) (chrom v) (pos v).

Definition is_record (l : string) : bool :=
  match record_of l with
  | Some _ => true
  | None => false
  end.

(** A data line [chrom<TAB>pos<TAB>.<NEWLINE>], for the examples. *)
Definition data_line (c p : string) : string :=
  (c ++ String tab (p ++ String tab ("." ++ String newline EmptyString)))%string.

(** A line that holds nothing but its newline. *)
Definition blank_line : string := String newline EmptyString.

(** Records resolved or pending: the two counters and the buffer. *)
Definition accounted (st : state) : nat :=
  (kept_count (out st) + removed_count (out st) + length (buffer st))%nat.

(** A record of a stream is what [record_of] reads back from its line. *)
Definition reads_back (v : variant) : Prop := record_of (line v) = Some v.

(** ** The counting pass: [calculate_stats] *)

(** The four accumulators of the first scan (lines 98-103). *)
Record tally : Type := Tally {
  count_sdr : nat;
  count_other : nat;
  max_pos_sdr : Z;
  max_pos_other : Z
}.

(** The body of the loop of [calculate_stats] (lines 107-123).  Here the
    length of [fields] is tested before [fields[1]] is read. *)
Definition count_line (sdr : string) (t : tally) (l : string) : tally :=
  if startswith_hash l then t
  else
    let fields := split_tab l in
    if (length fields <? 2)%nat then t
    else
      match fields !! 0%nat, fields !! 1%nat with
      | Some c, Some f1 =>
          match py_int f1 with
          | None => t
          | Some p =>
              if String.eqb c sdr then
                {| count_sdr := S (count_sdr t);
                   count_other := count_other t;
                   max_pos_sdr := if p >? max_pos_sdr t then p else max_pos_sdr t;
                   max_pos_other := max_pos_other t |}
              else
                {| count_sdr := count_sdr t;
                   count_other := S (count_other t);
                   max_pos_sdr := max_pos_sdr t;
                   max_pos_other := if p >? max_pos_other t then p else max_pos_other t |}
          end
      | _, _ => t
      end.

Definition count_lines (sdr : string) (lines : list string) : tally :=
  fold_left (count_line sdr) lines
            {| count_sdr := 0; count_other := 0; max_pos_sdr := 0; max_pos_other := 0 |}.

(** The length that divides the SDR count (lines 126-133). *)
Definition length_sdr (chrom_lens : gmap string Z) (sdr : string) (t : tally) : Z :=
  let len_sdr := default 0 (chrom_lens !! sdr) in
  if len_sdr =? 0 then
    if max_pos_sdr t >? 0 then max_pos_sdr t else 1000000
  else len_sdr.

(** The length that divides the background count (lines 139-148). *)
Definition length_total_other (chrom_lens : gmap string Z) (sdr : string) : Z :=
  let len_total_other :=
    map_fold (fun c l acc => if decide (c = sdr) then acc else acc + l) 0 chrom_lens in
  if len_total_other =? 0 then 372000000 else len_total_other.

(** [count / length if length > 0 else 0], a float: the exact quotient,
    except that a quotient of at most 2^-1075, half the smallest positive
    double, is the float 0.0 as in the code. *)
Definition density (count : nat) (len : Z) : R :=
  if len >? 0 then
    if Rle_dec (INR count / IZR len) (/ 2 ^ 1075) then 0%R
    else (INR count / IZR len)%R
  else 0%R.

(** [calculate_stats]: the pair [(het_sdr, het_other)]. *)
Definition calculate_stats (lines : list string) (chrom_lens : gmap string Z) (sdr : string)
  : R * R :=
  let t := count_lines sdr lines in
  (density (count_sdr t) (length_sdr chrom_lens sdr t),
   density (count_other t) (length_total_other chrom_lens sdr)).

(** [if het == 0: het = 0.000001] (lines 168-169); the literal has the
    exact value of that double, 4722366482869645 / 2^72. *)
Definition floor_density (het : R) : R :=
  if Req_dec_T het 0 then (4722366482869645 / 4722366482869645213696)%R else het.

(** Step 2 of [process_vcf] (lines 165-173): from the length table and the
    lines of the input to what the filtering pass needs. *)
Definition derive_thresholds (sdr : string) (p_value : R) (min_threshold : Z)
    (chrom_lens : gmap string Z) (lines : list string) : outcome config :=
  let '(het_sdr, het_other) := calculate_stats lines chrom_lens sdr in
  let het_other := floor_density het_other in
  let het_sdr := floor_density het_sdr in
  match calculate_dist_threshold het_sdr p_value min_threshold with
  | Raised e => Raised e
  | Returned t_sdr =>
      match calculate_dist_threshold het_other p_value min_threshold with
      | Raised e => Raised e
      | Returned t_other =>
          Returned {| sdr_chrom := sdr; thresh_sdr := t_sdr; thresh_other := t_other |}
      end
  end.

(** ** What the pass keeps on sorted input *)

(** The records that are clear of both neighbours in the stream: [c] is the
    record under consideration, [before] tells whether it is clear of its
    predecessor, [rs] are the records after it. *)
Fixpoint isolated_from (cfg : config) (before : bool) (c : variant) (rs : list variant)
  : list variant :=
  match rs with
  | [] => if before then [c] else []
  | y :: rest =>
      (if before && clear cfg c y then [c] else [])
      ++ isolated_from cfg (clear cfg c y) y rest
  end.

Definition isolated (cfg : config) (rs : list variant) : list variant :=
  match rs with
  | [] => []
  | c :: rest => isolated_from cfg true c rest
  end.

(** Every record conflicts with the record just before it. *)
Fixpoint chained (cfg : config) (rs : list variant) : bool :=
  match rs with
  | a :: rest =>
      match rest with
      | b :: _ => negb (clear cfg a b)
      | [] => true
      end
      && chained cfg rest
  | [] => true
  end.

(** No two consecutive records lie on the same chromosome. *)
Fixpoint alternating (rs : list variant) : bool :=
  match rs with
  | a :: rest =>
      match rest with
      | b :: _ => negb (same_chrom a b)
      | [] => true
      end
      && alternating rest
  | [] => true
  end.

(** Two states that differ only in the header lines printed so far. *)
Definition same_records (st1 st2 : state) : Prop :=
  buffer st1 = buffer st2
  /\ List.filter is_data (printed (out st1)) = List.filter is_data (printed (out st2))
  /\ kept_count (out st1) = kept_count (out st2)
  /\ removed_count (out st1) = removed_count (out st2).

(** ** The two readers of chromosome lengths *)

(** [s.rstrip()] and [s.strip()], on the white space of [is_space]. *)
Fixpoint rstrip (s : string) : string :=
  match s with
  | EmptyString => EmptyString
  | String c rest =>
      match rstrip rest with
      | EmptyString => if is_space c then EmptyString else String c EmptyString
      | r => String c r
      end
  end.

Definition strip (s : string) : string := rstrip (lstrip s).

(** What one line of the index file adds to the table (lines 44-54):
    nothing for a blank line, for a line of one column, and for a second
    column that [int] rejects. *)
Definition fai_entry (l : string) : option (string * Z) :=
  match strip l with
  | EmptyString => None
  | l' =>
      let parts := split_tab l' in
      if (2 <=? length parts)%nat then
        match parts !! 0%nat, parts !! 1%nat with
        | Some c, Some f1 =>
            match py_int f1 with
            | Some len => Some (c, len)
            | None => None
            end
        | _, _ => None
        end
      else None
  end.

(** [get_chrom_lengths_from_fai] (lines 35-63) on the lines of the index
    file; [None] is the empty path, for which no file is opened. *)
Definition get_chrom_lengths_from_fai (fai : option (list string)) : gmap string Z :=
  match fai with
  | None => ∅
  | Some lines =>
      fold_left (fun (chrom_lens : gmap string Z) l =>
                   match fai_entry l with
                   | Some (c, len) => <[c := len]> chrom_lens
                   | None => chrom_lens
                   end)
                lines ∅
  end.

(** The rest of [s] after the prefix [p], when [s] starts with [p]. *)
Fixpoint after_prefix (p s : string) : option string :=
  match p with
  | EmptyString => Some s
  | String a p' =>
      match s with
      | String b s' => if Ascii.eqb a b then after_prefix p' s' else None
      | EmptyString => None
      end
  end.

Fixpoint take_while (ok : ascii -> bool) (s : string) : string :=
  match s with
  | String c rest => if ok c then String c (take_while ok rest) else EmptyString
  | EmptyString => EmptyString
  end.

(** [re.search] for a pattern of the shape [prefix(class+)]: the group of
    the leftmost match, which is the longest run of characters of the
    class after the leftmost occurrence of the prefix that is followed by
    at least one such character. *)
Fixpoint search_group (p : string) (ok : ascii -> bool) (s : string) : option string :=
  let here :=
    match after_prefix p s with
    | Some rest =>
        match take_while ok rest with
        | EmptyString => None
        | g => Some g
        end
    | None => None
    end in
  match here with
  | Some g => Some g
  | None =>
      match s with
      | String _ s' => search_group p ok s'
      | EmptyString => None
      end
  end.

(** The class [[^,>]]. *)
Definition not_comma_gt (c : ascii) : bool :=
  negb (Ascii.eqb c (Ascii.ascii_of_nat 44) || Ascii.eqb c (Ascii.ascii_of_nat 62)).

(** The class [\d], in the ASCII range. *)
Definition is_digit (c : ascii) : bool :=
  match digit_of c with
  | Some _ => true
  | None => false
  end.

(** [get_chrom_lengths_from_vcf] (lines 65-79) on the lines of the VCF,
    [chrom_lens] being the table built so far. *)
Fixpoint get_chrom_lengths_from_vcf (lines : list string) (chrom_lens : gmap string Z)
  : outcome (gmap string Z) :=
  match lines with
  | [] => Returned chrom_lens
  | l :: rest =>
      if String.prefix "##contig" l then
        match search_group "ID=" not_comma_gt l, search_group "length=" is_digit l with
        | Some id, Some len =>
            match py_int len with
            | Some n => get_chrom_lengths_from_vcf rest (<[id := n]> chrom_lens)
            | None => Raised ValueError
            end
        | _, _ => get_chrom_lengths_from_vcf rest chrom_lens
        end
      else if negb (startswith_hash l) then Returned chrom_lens
      else get_chrom_lengths_from_vcf rest chrom_lens
  end.

(** The entries of one chromosome among the lines of an index file. *)
Definition fai_lengths_of (c : string) (lines : list string) : list Z :=
  omap (fun l => match fai_entry l with
                 | Some (c', len) => if String.eqb c' c then Some len else None
                 | None => None
                 end) lines.

(** A header line [##contig=<ID=name,length=digits...], [rest] being what
    follows the digits. *)
Definition contig_line (name ds rest : string) : string :=
  ("##contig=<" ++ "ID=" ++ name ++ "," ++ "length=" ++ ds ++ rest)%string.

(** The position field of a line is an integer: the line has a second
    tab-separated field and [int] accepts it. *)
Definition integer_position (l : string) : bool :=
  match split_tab l with
  | _ :: f1 :: _ =>
      match py_int f1 with
      | Some _ => true
      | None => false
      end
  | _ => false
  end.

(** * Properties *)

(** ** The chromosome length table *)

(** C8. For every chromosome name the combined table holds the length of
    the index file when the index file has one, otherwise the length of
    the VCF header when the header has one, and otherwise nothing. *)
Theorem combined_lengths_priority (fai vcf_chrom_lens : gmap string Z) (c : string) :
  get_combined_chrom_lengths fai vcf_chrom_lens !! c
  = match fai !! c with
    | Some len => Some len
    | None => vcf_chrom_lens !! c
    end.
Proof.
  revert c. unfold get_combined_chrom_lengths.
  apply (map_fold_weak_ind
           (fun (r : gmap string Z) (m : gmap string Z) =>
              forall c, r !! c = match fai !! c with
                                 | Some len => Some len
                                 | None => m !! c
                                 end)).
  - intros c. rewrite lookup_empty. by destruct (fai !! c).
  - intros i x m r Hi IH c.
    pose proof (IH i) as IHi. rewrite Hi in IHi.
    destruct (decide (r !! i = None)) as [Hnone | Hsome].
    + rewrite Hnone in IHi.
      destruct (decide (i = c)) as [-> | Hne].
      * rewrite !lookup_insert_eq. by destruct (fai !! c).
      * rewrite !lookup_insert_ne by done. apply IH.
    + destruct (decide (i = c)) as [-> | Hne].
      * rewrite IH, lookup_insert_eq, Hi.
        destruct (fai !! c); [done | congruence].
      * rewrite lookup_insert_ne by done. apply IH.
Qed.

(** ** The threshold calculator *)

Section Threshold.
Local Open Scope R_scope.

Lemma epsilon_pos : 0 < epsilon.
Proof. unfold epsilon. lra. Qed.

Lemma log_one_minus_neg (p : R) : 0 < p < 1 -> ln (1 - p) <= - p.
Proof.
  intros Hp. pose proof (exp_ineq1_le (ln (1 - p))) as H.
  rewrite exp_ln in H by lra. lra.
Qed.

Lemma int_of_float_nonneg (x : R) : 0 <= x -> int_of_float x = Zfloor x.
Proof. intros Hx. unfold int_of_float. destruct (Rlt_dec x 0); [lra | reflexivity]. Qed.

Lemma quotient_nonneg (p d : R) : 0 < p < 1 -> 0 < d -> 0 <= - ln (1 - p) / d.
Proof.
  intros Hp Hd. pose proof (log_one_minus_neg p Hp).
  apply Rmult_le_pos; [lra | left; apply Rinv_0_lt_compat; exact Hd].
Qed.

Lemma threshold_above_epsilon (d p : R) (m : Z) :
  0 < p < 1 -> epsilon < d ->
  calculate_dist_threshold d p m = Returned (Z.max (Zfloor (- ln (1 - p) / d)) m).
Proof.
  intros Hp Hd. unfold calculate_dist_threshold, math_log.
  destruct (Rle_dec d epsilon); [lra |].
  destruct (Rlt_dec 0 (1 - p)); [| lra].
  rewrite int_of_float_nonneg; [reflexivity |].
  apply quotient_nonneg; [exact Hp | pose proof epsilon_pos; lra].
Qed.

Lemma threshold_below_epsilon (d p : R) (m : Z) :
  d <= epsilon -> calculate_dist_threshold d p m = Returned m.
Proof.
  intros Hd. unfold calculate_dist_threshold. destruct (Rle_dec d epsilon); [reflexivity | lra].
Qed.

(** C7 as stated fails: the density [1e-9] is positive and gets the floor
    [10]; the larger density [1e-3] gets a threshold of at least 50. *)
Lemma threshold_not_monotone_at_epsilon :
  0 < epsilon <= 1 / 1000
  /\ calculate_dist_threshold epsilon (5 / 100) 10 = Returned 10%Z
  /\ exists t, calculate_dist_threshold (1 / 1000) (5 / 100) 10 = Returned t
               /\ (50 <= t)%Z.
Proof.
  assert (Hp : 0 < 5 / 100 < 1) by lra.
  assert (He : epsilon < 1 / 1000).
  { unfold epsilon. lra. }
  split; [pose proof epsilon_pos; lra |].
  split; [apply threshold_below_epsilon; lra |].
  eexists. split; [by apply threshold_above_epsilon |].
  assert (50 <= Zfloor (- ln (1 - 5 / 100) / (1 / 1000)))%Z; [| lia].
  apply Zfloor_lub. pose proof (log_one_minus_neg _ Hp). lra.
Qed.

(** C7, amended. For [p] in (0,1): the threshold is non-increasing in the
    density as long as both densities lie on the same side of the epsilon,
    and for every positive density it is non-decreasing in the floor [m]
    and never below [m]. *)
Theorem threshold_shape (p : R) :
  0 < p < 1 ->
  (forall (d1 d2 : R) (m : Z),
      0 < d1 -> d1 <= d2 -> d2 <= epsilon \/ epsilon < d1 ->
      exists t1 t2, calculate_dist_threshold d1 p m = Returned t1
                    /\ calculate_dist_threshold d2 p m = Returned t2
                    /\ (t2 <= t1)%Z)
  /\ (forall (d : R) (m m' : Z),
         0 < d -> (m <= m')%Z ->
         exists t t', calculate_dist_threshold d p m = Returned t
                      /\ calculate_dist_threshold d p m' = Returned t'
                      /\ (t <= t')%Z)
  /\ (forall (d : R) (m : Z),
         0 < d -> exists t, calculate_dist_threshold d p m = Returned t /\ (m <= t)%Z).
Proof.
  intros Hp. split; [| split].
  - intros d1 d2 m Hd1 Hle [Hlow | Hhigh].
    + exists m, m. rewrite !threshold_below_epsilon by lra. repeat split; lia.
    + eexists _, _.
      rewrite !threshold_above_epsilon by (try exact Hp; lra).
      split; [reflexivity | split; [reflexivity |]].
      apply Z.max_le_compat_r, Zfloor_le.
      pose proof (log_one_minus_neg p Hp) as Hl.
      pose proof epsilon_pos as He.
      unfold Rdiv. apply Rmult_le_compat_l; [lra |].
      apply Rinv_le_contravar; lra.
  - intros d m m' Hd Hm. destruct (Rle_dec d epsilon) as [Hlow | Hhigh].
    + exists m, m'. rewrite !threshold_below_epsilon by lra. repeat split; lia.
    + eexists _, _. rewrite !threshold_above_epsilon by (try exact Hp; lra).
      split; [reflexivity | split; [reflexivity | lia]].
  - intros d m Hd. destruct (Rle_dec d epsilon) as [Hlow | Hhigh].
    + exists m. rewrite threshold_below_epsilon by lra. split; [reflexivity | lia].
    + eexists. rewrite threshold_above_epsilon by (try exact Hp; lra).
      split; [reflexivity | lia].
Qed.

Lemma threshold_shape_witness :
  (forall (d1 d2 : R) (m : Z),
      0 < d1 -> d1 <= d2 -> d2 <= epsilon \/ epsilon < d1 ->
      exists t1 t2, calculate_dist_threshold d1 (1 / 2) m = Returned t1
                    /\ calculate_dist_threshold d2 (1 / 2) m = Returned t2
                    /\ (t2 <= t1)%Z)
  /\ (forall (d : R) (m m' : Z),
         0 < d -> (m <= m')%Z ->
         exists t t', calculate_dist_threshold d (1 / 2) m = Returned t
                      /\ calculate_dist_threshold d (1 / 2) m' = Returned t'
                      /\ (t <= t')%Z)
  /\ (forall (d : R) (m : Z),
         0 < d -> exists t, calculate_dist_threshold d (1 / 2) m = Returned t /\ (m <= t)%Z).
Proof. apply (threshold_shape (1 / 2)). lra. Defined.

End Threshold.

(** ** The loop over the pending buffer *)

Section Walk.
Variables (c : string) (p thresh : Z).

Lemma visit_conflict (w : walk) (v : variant) :
  conflicts c p thresh v = true ->
  visit c p thresh w v
  = {| new_buffer := new_buffer w ++ [set_keep false v];
       current_keep := false;
       walk_out := walk_out w |}.
Proof.
  unfold conflicts, visit. intros H. apply andb_prop in H as [Hc Hd].
  rewrite Hc. cbn. apply negb_true_iff in Hd. rewrite Hd. reflexivity.
Qed.

Lemma visit_safe (w : walk) (v : variant) :
  conflicts c p thresh v = false ->
  visit c p thresh w v
  = {| new_buffer := new_buffer w;
       current_keep := current_keep w;
       walk_out := flush (walk_out w) v |}.
Proof.
  unfold conflicts, visit. intros H.
  destruct (String.eqb (chrom v) c); cbn in *; [| reflexivity].
  apply negb_false_iff in H. rewrite H. reflexivity.
Qed.

Lemma walk_spec (buf : list variant) (w : walk) :
  fold_left (visit c p thresh) buf w
  = {| new_buffer :=
         new_buffer w ++ map (set_keep false) (List.filter (conflicts c p thresh) buf);
       current_keep :=
         current_keep w && forallb (fun v => negb (conflicts c p thresh v)) buf;
       walk_out :=
         fold_left flush (List.filter (fun v => negb (conflicts c p thresh v)) buf)
                   (walk_out w) |}.
Proof.
  revert w. induction buf as [| v buf IH]; intros w; cbn [fold_left List.filter forallb map].
  - rewrite app_nil_r, andb_true_r. by destruct w.
  - rewrite IH. destruct (conflicts c p thresh v) eqn:Hv.
    + rewrite visit_conflict by done. cbn. by rewrite <- app_assoc, andb_false_r.
    + rewrite visit_safe by done. by cbn.
Qed.

End Walk.

Lemma feed_spec (cfg : config) (st : state) (l c : string) (p : Z) :
  let t := current_thresh cfg c in
  feed cfg st l c p
  = {| buffer :=
         map (set_keep false) (List.filter (conflicts c p t) (buffer st))
         ++ [{| line := l; chrom := c; pos := p;
                keep := forallb (fun v => negb (conflicts c p t v)) (buffer st) |}];
       out := fold_left flush (List.filter (fun v => negb (conflicts c p t v)) (buffer st))
                        (out st) |}.
Proof. intros t. unfold feed. rewrite walk_spec. reflexivity. Qed.

(** ** One line, and a run of lines *)

Lemma record_of_inv (l : string) (v : variant) :
  record_of l = Some v ->
  startswith_hash l = false
  /\ read_fields l = Returned (Some (chrom v, pos v))
  /\ line v = l /\ keep v = true.
Proof.
  unfold record_of. destruct (startswith_hash l); [discriminate |].
  destruct (read_fields l) as [[[c p] |] | e]; try discriminate.
  intros [= <-]. by cbn.
Qed.

Lemma step_header (cfg : config) (st : state) (l : string) :
  startswith_hash l = true ->
  step cfg st l = Returned {| buffer := buffer st; out := print l (out st) |}
  /\ record_of l = None.
Proof. intros H. unfold step, record_of. by rewrite H. Qed.

Lemma step_record (cfg : config) (st : state) (l : string) (v : variant) :
  record_of l = Some v -> step cfg st l = Returned (feed_record cfg st v).
Proof.
  intros H. destruct (record_of_inv l v H) as (Hh & Hr & Hl & _).
  unfold step, feed_record. by rewrite Hh, Hr, Hl.
Qed.

(** A data line with a second field that [int] rejects is skipped. *)
Lemma step_value_error (cfg : config) (st : state) (l : string) :
  startswith_hash l = false -> read_fields l = Returned None ->
  step cfg st l = Returned st /\ record_of l = None.
Proof. intros Hh Hr. unfold step, record_of. by rewrite Hh, Hr. Qed.

Lemma read_fields_short (l : string) :
  (length (split_tab l) < 2)%nat -> read_fields l = Raised IndexError.
Proof.
  unfold read_fields. destruct (split_tab l) as [| f0 [| f1 fs]]; cbn; [done | done | lia].
Qed.

Lemma read_fields_long (l : string) :
  (2 <= length (split_tab l))%nat ->
  read_fields l = Returned None
  \/ exists c p, read_fields l = Returned (Some (c, p)).
Proof.
  unfold read_fields. destruct (split_tab l) as [| f0 [| f1 fs]]; cbn; [lia | lia |].
  intros _. destruct (py_int f1); eauto.
Qed.

(** The three ways a line with at least two fields is consumed. *)
Lemma step_cases (cfg : config) (st : state) (l : string) :
  startswith_hash l || (2 <=? length (split_tab l))%nat = true ->
  (startswith_hash l = true /\ record_of l = None
   /\ step cfg st l = Returned {| buffer := buffer st; out := print l (out st) |})
  \/ (startswith_hash l = false /\ record_of l = None /\ step cfg st l = Returned st)
  \/ (exists v, startswith_hash l = false /\ record_of l = Some v
                /\ step cfg st l = Returned (feed_record cfg st v)).
Proof.
  intros H. destruct (startswith_hash l) eqn:Hh.
  - left. destruct (step_header cfg st l Hh). auto.
  - right. rewrite orb_false_l in H. apply Nat.leb_le in H.
    destruct (read_fields_long l H) as [Hr | (c & p & Hr)].
    + left. destruct (step_value_error cfg st l Hh Hr). auto.
    + right. exists {| line := l; chrom := c; pos := p; keep := true |}.
      assert (Hrec : record_of l = Some {| line := l; chrom := c; pos := p; keep := true |}).
      { unfold record_of. by rewrite Hh, Hr. }
      split; [done | split; [done |]]. by apply step_record.
Qed.

Lemma run_app (cfg : config) (l1 l2 : list string) (st : state) :
  run cfg st (l1 ++ l2)
  = match run cfg st l1 with
    | Returned st' => run cfg st' l2
    | Raised e => Raised e
    end.
Proof.
  revert st. induction l1 as [| l l1 IH]; intros st; cbn; [done |].
  destruct (step cfg st l); [apply IH | done].
Qed.

Lemma two_fields_cons (l : string) (lines : list string) :
  two_fields (l :: lines) = true ->
  startswith_hash l || (2 <=? length (split_tab l))%nat = true /\ two_fields lines = true.
Proof. unfold two_fields. cbn. apply andb_prop. Qed.

Lemma two_fields_take (n : nat) (lines : list string) :
  two_fields lines = true -> two_fields (take n lines) = true.
Proof.
  revert n. induction lines as [| l lines IH]; intros [| n] H; try done.
  apply two_fields_cons in H as [Hl H]. cbn [take].
  unfold two_fields in *. cbn [forallb]. rewrite Hl. by apply IH.
Qed.

Lemma records_cons (l : string) (lines : list string) :
  records (l :: lines)
  = match record_of l with
    | Some v => v :: records lines
    | None => records lines
    end.
Proof. unfold records. cbn. by destruct (record_of l). Qed.

(** An invariant of both ways a line changes the state is an invariant of
    the run, and a run over lines of at least two fields returns. *)
Lemma run_invariant (cfg : config) (P : state -> Prop) :
  (forall st l, P st -> P {| buffer := buffer st; out := print l (out st) |}) ->
  (forall st v, P st -> P (feed_record cfg st v)) ->
  forall lines st, two_fields lines = true -> P st ->
                   exists st', run cfg st lines = Returned st' /\ P st'.
Proof.
  intros Hprint Hfeed. induction lines as [| l lines IH]; intros st Htf HP; cbn.
  - eauto.
  - apply two_fields_cons in Htf as [Hl Htf].
    destruct (step_cases cfg st l Hl) as [(_ & _ & ->) | [(_ & _ & ->) | (v & _ & _ & ->)]];
      apply IH; auto.
Qed.

(** ** Malformed lines *)

(** C1, the part the code breaks. A data line with fewer than two
    tab-separated fields is not skipped: [fields[1]] raises [IndexError],
    which the [except ValueError] clause does not catch, and the pass
    stops there, whatever lines came before or come after. *)
Theorem short_line_raises (cfg : config) (before after : list string) (l : string) :
  two_fields before = true ->
  startswith_hash l = false ->
  (length (split_tab l) < 2)%nat ->
  process_vcf cfg (before ++ l :: after) = Raised IndexError.
Proof.
  intros Hbefore Hh Hshort. unfold process_vcf. rewrite run_app.
  destruct (run_invariant cfg (fun _ => True) (fun _ _ _ => I) (fun _ _ _ => I)
              before initial Hbefore I) as (st & -> & _).
  cbn. unfold step. rewrite Hh, read_fields_short by done. reflexivity.
Qed.

Lemma short_line_raises_witness :
  process_vcf {| sdr_chrom := "Chr1_RagTag"; thresh_sdr := 20; thresh_other := 20 |}
    ([data_line "chr1" "10"] ++ blank_line :: [data_line "chr1" "500"])
  = Raised IndexError.
Proof. apply short_line_raises; [reflexivity | reflexivity | vm_compute; lia]. Defined.

(** The other kind of malformed line: a data line with a second field that
    is not an integer leaves the state, and so both counters, as they
    were. *)
Lemma non_integer_position_skipped (cfg : config) (st : state) (l : string) :
  startswith_hash l = false ->
  (2 <= length (split_tab l))%nat ->
  record_of l = None ->
  step cfg st l = Returned st.
Proof.
  intros Hh Hlen Hrec.
  destruct (read_fields_long l Hlen) as [Hr | (c & p & Hr)].
  - by destruct (step_value_error cfg st l Hh Hr).
  - unfold record_of in Hrec. by rewrite Hh, Hr in Hrec.
Qed.

(** ** The conflict test *)

(** C4. For a pending record of the chromosome of the incoming one, a
    distance equal to the threshold is a conflict: the pending record
    stays in the buffer, the same record but with [keep] false, and the
    incoming record is appended with [keep] false; the pending record is
    flushed exactly when the distance is strictly greater than the
    threshold. *)
Theorem conflict_at_threshold
    (cfg : config) (st : state) (w : walk) (l c : string) (p : Z) (prev_var : variant) :
  chrom prev_var = c ->
  let thresh := current_thresh cfg c in
  (p - pos prev_var = thresh ->
   visit c p thresh w prev_var
   = {| new_buffer :=
          new_buffer w
          ++ [{| line := line prev_var; chrom := chrom prev_var;
                 pos := pos prev_var; keep := false |}];
        current_keep := false;
        walk_out := walk_out w |}
   /\ (In prev_var (buffer st) ->
       In {| line := line prev_var; chrom := chrom prev_var;
             pos := pos prev_var; keep := false |}
          (buffer (feed cfg st l c p))
       /\ last (buffer (feed cfg st l c p))
          = Some {| line := l; chrom := c; pos := p; keep := false |}))
  /\ (visit c p thresh w prev_var
      = {| new_buffer := new_buffer w;
           current_keep := current_keep w;
           walk_out := flush (walk_out w) prev_var |}
      <-> p - pos prev_var > thresh).
Proof.
  intros Hc thresh. split.
  - intros Hd.
    assert (Hconf : conflicts c p thresh prev_var = true).
    { unfold conflicts. rewrite Hc, String.eqb_refl, Hd. cbn.
      apply negb_true_iff. rewrite Z.gtb_ltb. apply Z.ltb_irrefl. }
    split; [by apply visit_conflict |].
    intros Hin. rewrite feed_spec. cbn [buffer]. fold thresh. split.
    + apply in_or_app. left.
      change {| line := line prev_var; chrom := chrom prev_var;
                pos := pos prev_var; keep := false |} with (set_keep false prev_var).
      apply in_map. apply filter_In. by split.
    + rewrite last_snoc. do 2 f_equal.
      apply not_true_is_false. intros Hall.
      rewrite forallb_forall in Hall. specialize (Hall _ Hin).
      by rewrite Hconf in Hall.
  - split.
    + intros Hv. destruct (conflicts c p thresh prev_var) eqn:Hconf.
      * rewrite visit_conflict in Hv by done.
        apply (f_equal new_buffer) in Hv. cbn in Hv.
        apply (f_equal length) in Hv. rewrite length_app in Hv. cbn in Hv. lia.
      * unfold conflicts in Hconf. rewrite Hc, String.eqb_refl in Hconf. cbn in Hconf.
        apply negb_false_iff in Hconf. rewrite Z.gtb_ltb in Hconf.
        apply Z.ltb_lt in Hconf. lia.
    + intros Hd. apply visit_safe. unfold conflicts.
      rewrite Hc, String.eqb_refl. cbn. apply negb_false_iff.
      rewrite Z.gtb_ltb. apply Z.ltb_lt. lia.
Qed.

Lemma conflict_at_threshold_witness :
  let cfg := {| sdr_chrom := "Chr1_RagTag"; thresh_sdr := 30; thresh_other := 10 |} in
  let prev_var := {| line := data_line "chr2" "100"; chrom := "chr2"; pos := 100; keep := true |} in
  let st := {| buffer := [prev_var]; out := out initial |} in
  let w := {| new_buffer := []; current_keep := true; walk_out := out initial |} in
  (110 - pos prev_var = 10 ->
   visit "chr2" 110 10 w prev_var
   = {| new_buffer :=
          new_buffer w
          ++ [{| line := data_line "chr2" "100"; chrom := "chr2"; pos := 100; keep := false |}];
        current_keep := false;
        walk_out := walk_out w |}
   /\ (In prev_var (buffer st) ->
       In {| line := data_line "chr2" "100"; chrom := "chr2"; pos := 100; keep := false |}
          (buffer (feed cfg st (data_line "chr2" "110") "chr2" 110))
       /\ last (buffer (feed cfg st (data_line "chr2" "110") "chr2" 110))
          = Some {| line := data_line "chr2" "110"; chrom := "chr2"; pos := 110; keep := false |}))
  /\ (visit "chr2" 110 10 w prev_var
      = {| new_buffer := new_buffer w;
           current_keep := current_keep w;
           walk_out := flush (walk_out w) prev_var |}
      <-> 110 - pos prev_var > 10).
Proof.
  intros cfg prev_var st w.
  apply (conflict_at_threshold cfg st w (data_line "chr2" "110") "chr2" 110 prev_var).
  reflexivity.
Defined.

(** ** Chain propagation *)

(** C5. Three records of one chromosome at positions 10, 15 and 100 under
    an active threshold of 20: the first two are removed, the third is
    kept; the run ends with one record kept and two removed. *)
Theorem chain_10_15_100 (cfg : config) (c l1 l2 l3 : string) :
  current_thresh cfg c = 20 ->
  record_of l1 = Some {| line := l1; chrom := c; pos := 10; keep := true |} ->
  record_of l2 = Some {| line := l2; chrom := c; pos := 15; keep := true |} ->
  record_of l3 = Some {| line := l3; chrom := c; pos := 100; keep := true |} ->
  process_vcf cfg [l1; l2; l3]
  = Returned {| printed := [l3]; kept_count := 1; removed_count := 2 |}.
Proof.
  intros Ht H1 H2 H3. unfold process_vcf. cbn [run].
  rewrite (step_record _ _ _ _ H1). rewrite (step_record _ _ _ _ H2).
  rewrite (step_record _ _ _ _ H3).
  unfold feed_record. cbn [line chrom pos].
  assert (Hconf : forall (l : string) (k : bool),
             conflicts c 15 20 {| line := l; chrom := c; pos := 10; keep := k |} = true).
  { intros. unfold conflicts. cbn. by rewrite String.eqb_refl. }
  assert (Hsafe : forall (l : string) (q : Z) (k : bool), q <= 15 ->
             conflicts c 100 20 {| line := l; chrom := c; pos := q; keep := k |} = false).
  { intros l q k Hq. unfold conflicts. cbn. rewrite String.eqb_refl. cbn.
    apply negb_false_iff. rewrite Z.gtb_ltb. apply Z.ltb_lt. lia. }
  assert (H : feed cfg initial l1 c 10
              = {| buffer := [{| line := l1; chrom := c; pos := 10; keep := true |}];
                   out := out initial |}) by reflexivity.
  rewrite H. clear H.
  unfold feed at 2. rewrite Ht. cbn [fold_left buffer out].
  rewrite visit_conflict by apply Hconf. unfold set_keep.
  cbn [new_buffer current_keep walk_out app line chrom pos].
  unfold feed. rewrite Ht. cbn [fold_left buffer out].
  rewrite !visit_safe by (apply Hsafe; lia). reflexivity.
Qed.

Lemma chain_10_15_100_witness :
  process_vcf {| sdr_chrom := "Chr1_RagTag"; thresh_sdr := 35; thresh_other := 20 |}
    [data_line "chr2" "10"; data_line "chr2" "15"; data_line "chr2" "100"]
  = Returned {| printed := [data_line "chr2" "100"]; kept_count := 1; removed_count := 2 |}.
Proof. apply (chain_10_15_100 _ "chr2"); reflexivity. Defined.

(** ** Invariants of the pending buffer *)

Lemma feed_record_buffer (cfg : config) (st : state) (v : variant) :
  exists (older : list variant) (k : bool),
    buffer (feed_record cfg st v) = older ++ [set_keep k v]
    /\ Forall (fun x => keep x = false) older.
Proof.
  unfold feed_record. rewrite feed_spec. cbn [buffer]. eexists _, _. split; [reflexivity |].
  apply Forall_forall. intros x Hx. apply list_elem_of_In, in_map_iff in Hx.
  by destruct Hx as (y & <- & _).
Qed.

(** C10. After every prefix of the input has been processed, every entry
    of the pending buffer except the last, most recently appended one has
    its [keep] flag false. *)
Theorem pending_keep_invariant (cfg : config) (lines : list string) (n : nat) :
  two_fields lines = true ->
  exists st, run cfg initial (take n lines) = Returned st
             /\ Forall (fun v => keep v = false) (removelast (buffer st)).
Proof.
  intros Htf.
  apply (run_invariant cfg (fun st => Forall (fun v => keep v = false) (removelast (buffer st)))).
  - intros st l H. exact H.
  - intros st v _. destruct (feed_record_buffer cfg st v) as (older & k & -> & H).
    by rewrite removelast_last.
  - by apply two_fields_take.
  - by cbn.
Qed.

Lemma pending_keep_invariant_witness :
  exists st,
    run {| sdr_chrom := "Chr1_RagTag"; thresh_sdr := 35; thresh_other := 20 |} initial
        (take 3 [data_line "chr2" "10"; data_line "chr2" "15"; data_line "chr2" "30";
                 data_line "chr2" "100"])
    = Returned st
    /\ Forall (fun v => keep v = false) (removelast (buffer st)).
Proof. apply pending_keep_invariant. reflexivity. Defined.

(** ** Conservation of records *)

Lemma flush_counts (l : list variant) (o : sink) :
  (kept_count (fold_left flush l o) + removed_count (fold_left flush l o)
   = kept_count o + removed_count o + length l)%nat.
Proof.
  revert o. induction l as [| v l IH]; intros o; cbn [fold_left length]; [lia |].
  rewrite IH. unfold flush. destruct (keep v); cbn; lia.
Qed.

Lemma filter_split_length {A : Type} (f : A -> bool) (l : list A) :
  (length (List.filter f l) + length (List.filter (fun x => negb (f x)) l) = length l)%nat.
Proof. induction l as [| x l IH]; cbn; [done |]. destruct (f x); cbn; lia. Qed.

Lemma feed_record_accounted (cfg : config) (st : state) (v : variant) :
  accounted (feed_record cfg st v) = S (accounted st).
Proof.
  unfold feed_record, accounted. rewrite feed_spec. cbn [buffer out].
  rewrite flush_counts, length_app, length_map. cbn [length].
  pose proof (filter_split_length
                (conflicts (chrom v) (pos v) (current_thresh cfg (chrom v))) (buffer st)).
  lia.
Qed.

Lemma run_accounted (cfg : config) (lines : list string) (st : state) :
  two_fields lines = true ->
  exists st', run cfg st lines = Returned st'
              /\ accounted st' = (accounted st + length (records lines))%nat.
Proof.
  revert st. induction lines as [| l lines IH]; intros st Htf.
  - exists st. cbn. split; [done | lia].
  - apply two_fields_cons in Htf as [Hl Htf]. cbn [run]. rewrite records_cons.
    destruct (step_cases cfg st l Hl)
      as [(_ & -> & ->) | [(_ & -> & ->) | (v & _ & -> & ->)]].
    + destruct (IH {| buffer := buffer st; out := print l (out st) |} Htf) as (st' & Hrun & Hacc).
      exists st'. split; [done |]. rewrite Hacc. reflexivity.
    + apply IH, Htf.
    + destruct (IH (feed_record cfg st v) Htf) as (st' & Hrun & Hacc).
      exists st'. split; [done |]. rewrite Hacc, feed_record_accounted. cbn [length]. lia.
Qed.

(** C9. After every prefix of the input has been processed, the number of
    records parsed so far equals the kept count plus the removed count
    plus the number of pending entries; at the end of the stream the kept
    count plus the removed count is the number of parsed records. *)
Theorem conservation_of_records (cfg : config) (lines : list string) (n : nat) :
  two_fields lines = true ->
  (exists st, run cfg initial (take n lines) = Returned st
              /\ length (records (take n lines))
                 = (kept_count (out st) + removed_count (out st) + length (buffer st))%nat)
  /\ (exists o, process_vcf cfg lines = Returned o
                /\ (kept_count o + removed_count o)%nat = length (records lines)).
Proof.
  intros Htf. split.
  - destruct (run_accounted cfg (take n lines) initial (two_fields_take n lines Htf))
      as (st & Hrun & Hacc).
    exists st. split; [done |]. unfold accounted in Hacc. cbn in Hacc. lia.
  - destruct (run_accounted cfg lines initial Htf) as (st & Hrun & Hacc).
    exists (drain st). unfold process_vcf. rewrite Hrun. split; [done |].
    unfold drain. rewrite flush_counts. unfold accounted in Hacc. cbn in Hacc. lia.
Qed.

Lemma conservation_of_records_witness :
  let cfg := {| sdr_chrom := "Chr1_RagTag"; thresh_sdr := 35; thresh_other := 20 |} in
  let lines := ["##fileformat=VCFv4.2"; data_line "chr2" "10"; data_line "chr2" "15";
                data_line "chr2" "x"; data_line "chr2" "100"] in
  (exists st, run cfg initial (take 3 lines) = Returned st
              /\ length (records (take 3 lines))
                 = (kept_count (out st) + removed_count (out st) + length (buffer st))%nat)
  /\ (exists o, process_vcf cfg lines = Returned o
                /\ (kept_count o + removed_count o)%nat = length (records lines)).
Proof. intros cfg lines. apply conservation_of_records. reflexivity. Defined.

(** ** Flushing *)

Lemma flush_kept (l : list variant) (o : sink) :
  Forall (fun v => keep v = true) l ->
  fold_left flush l o
  = {| printed := printed o ++ map line l;
       kept_count := kept_count o + length l;
       removed_count := removed_count o |}.
Proof.
  revert o. induction l as [| v l IH]; intros o H; cbn [fold_left map length].
  - rewrite app_nil_r, Nat.add_0_r. by destruct o.
  - apply Forall_cons in H as [Hv H]. rewrite IH by done.
    unfold flush. rewrite Hv. cbn. rewrite <- app_assoc. f_equal. lia.
Qed.

Lemma flush_removed (l : list variant) (o : sink) :
  Forall (fun v => keep v = false) l ->
  fold_left flush l o
  = {| printed := printed o;
       kept_count := kept_count o;
       removed_count := removed_count o + length l |}.
Proof.
  revert o. induction l as [| v l IH]; intros o H; cbn [fold_left length].
  - rewrite Nat.add_0_r. by destruct o.
  - apply Forall_cons in H as [Hv H]. rewrite IH by done.
    unfold flush. rewrite Hv. cbn. f_equal. lia.
Qed.

Lemma filter_nothing {A : Type} (f : A -> bool) (l : list A) :
  forallb (fun x => negb (f x)) l = true ->
  List.filter f l = [] /\ List.filter (fun x => negb (f x)) l = l.
Proof.
  induction l as [| x l IH]; cbn; [done |].
  intros H. apply andb_prop in H as [Hx H]. destruct (IH H) as [-> ->].
  rewrite Hx. apply negb_true_iff in Hx. by rewrite Hx.
Qed.

(** ** Records and their lines *)

Lemma record_is_data (l : string) (v : variant) :
  record_of l = Some v -> is_data (line v) = true.
Proof.
  intros H. destruct (record_of_inv l v H) as (Hh & _ & -> & _).
  unfold is_data. by rewrite Hh.
Qed.

Lemma record_lines (lines : list string) :
  map line (records lines) = List.filter is_record lines.
Proof.
  induction lines as [| l lines IH]; [done |].
  rewrite records_cons. cbn [List.filter]. unfold is_record at 1.
  destruct (record_of l) as [v |] eqn:Hv; [| done].
  cbn [map]. destruct (record_of_inv l v Hv) as (_ & _ & -> & _). by rewrite IH.
Qed.

Lemma set_keep_true (v : variant) : keep v = true -> set_keep true v = v.
Proof. destruct v as [l c p k]. cbn. by intros ->. Qed.

(** ** Well-spaced input passes through *)

Lemma sorted_far_apart_well_spaced (cfg : config) (rs : list variant) :
  position_sorted rs = true -> far_apart cfg rs = true -> well_spaced cfg rs = true.
Proof.
  induction rs as [| a rs IH]; [done |].
  cbn [position_sorted far_apart well_spaced]. intros Hs Hf.
  apply andb_prop in Hs as [Hsa Hs]. apply andb_prop in Hf as [Hfa Hf].
  rewrite IH, andb_true_r by done. destruct rs as [| b rs]; [done |].
  cbn [forallb] in Hsa, Hfa.
  apply andb_prop in Hsa as [Hsab _]. apply andb_prop in Hfa as [Hfab _].
  unfold clear, conflicts. fold (same_chrom a b).
  destruct (same_chrom a b); [| done]. cbn in *.
  apply Z.leb_le in Hsab. rewrite Z.abs_eq in Hfab by lia. by rewrite Hfab.
Qed.

Lemma well_spaced_pending (cfg : config) (pend rs : list variant) (v : variant) :
  (length pend <= 1)%nat ->
  well_spaced cfg (pend ++ v :: rs) = true ->
  forallb (fun a => negb (conflicts (chrom v) (pos v) (current_thresh cfg (chrom v)) a)) pend
  = true
  /\ well_spaced cfg ([v] ++ rs) = true.
Proof.
  destruct pend as [| a [| b pend]]; cbn [length app]; intros Hlen H; [done | | lia].
  cbn [well_spaced] in H. apply andb_prop in H as [Hav H]. cbn [forallb].
  unfold clear in Hav. by rewrite Hav.
Qed.

Lemma data_lines_filter (l : list variant) :
  Forall (fun v => is_data (line v) = true) l ->
  List.filter is_data (map line l) = map line l
  /\ List.filter startswith_hash (map line l) = [].
Proof.
  induction l as [| v l IH]; [done |].
  intros H. apply Forall_cons in H as [Hv H]. destruct (IH H) as [IH1 IH2].
  cbn [map List.filter]. rewrite Hv, IH1, IH2.
  unfold is_data in Hv. apply negb_true_iff in Hv. by rewrite Hv.
Qed.

Lemma pass_through_run (cfg : config) (lines : list string) :
  forall (st : state) (pend : list variant),
    buffer st = pend ->
    (length pend <= 1)%nat ->
    Forall (fun v => keep v = true) pend ->
    Forall (fun v => is_data (line v) = true) pend ->
    well_spaced cfg (pend ++ records lines) = true ->
    two_fields lines = true ->
    exists st',
      run cfg st lines = Returned st'
      /\ removed_count (drain st') = removed_count (out st)
      /\ kept_count (drain st')
         = (kept_count (out st) + length pend + length (records lines))%nat
      /\ List.filter is_data (printed (drain st'))
         = List.filter is_data (printed (out st)) ++ map line pend ++ map line (records lines)
      /\ List.filter startswith_hash (printed (drain st'))
         = List.filter startswith_hash (printed (out st))
           ++ List.filter startswith_hash lines
      /\ (forallb is_data lines = true ->
          printed (drain st') = printed (out st) ++ map line pend ++ map line (records lines)).
Proof.
  induction lines as [| l lines IH]; intros st pend Hbuf Hlen Hkeep Hpd Hws Htf.
  - exists st. split; [done |]. unfold drain. rewrite Hbuf, flush_kept by done.
    destruct (data_lines_filter pend Hpd) as [Hd Hn].
    cbn. rewrite !List.filter_app, Hd, Hn, !app_nil_r. repeat split; lia.
  - apply two_fields_cons in Htf as [Hl Htf]. cbn [run]. rewrite records_cons in *.
    destruct (step_cases cfg st l Hl)
      as [(Hh & Hrec & ->) | [(Hh & Hrec & ->) | (v & Hh & Hrec & ->)]];
      rewrite Hrec in *.
    + destruct (IH {| buffer := buffer st; out := print l (out st) |} pend
                  Hbuf Hlen Hkeep Hpd Hws Htf)
        as (st' & Hrun & Hrem & Hkept & Hdata & Hhdr & _).
      exists st'. split; [done |]. cbn [out print printed kept_count removed_count] in *.
      split; [done |]. split; [done |].
      rewrite Hdata, Hhdr, !List.filter_app. cbn [List.filter forallb].
      unfold is_data at 2 4. rewrite Hh. cbn [negb andb].
      rewrite app_nil_r, <- app_assoc. repeat split. discriminate.
    + destruct (IH st pend Hbuf Hlen Hkeep Hpd Hws Htf)
        as (st' & Hrun & Hrem & Hkept & Hdata & Hhdr & Hexact).
      exists st'. split; [done |]. split; [done |]. split; [done |].
      split; [done |]. cbn [List.filter forallb]. rewrite Hh.
      split; [done |]. intros Hall. apply andb_prop in Hall as [_ Hall]. auto.
    + destruct (record_of_inv l v Hrec) as (_ & _ & Hline & Hkv).
      pose proof (record_is_data l v Hrec) as Hdv.
      destruct (well_spaced_pending cfg pend (records lines) v Hlen Hws) as [Hclear Hws'].
      destruct (filter_nothing _ _ Hclear) as [Hnone Hall].
      assert (Hfeed : feed_record cfg st v
                      = {| buffer := [v]; out := fold_left flush pend (out st) |}).
      { unfold feed_record. rewrite feed_spec. cbn zeta. rewrite Hbuf, Hnone, Hall, Hclear.
        cbn [map app]. change (Variant (line v) (chrom v) (pos v) true) with (set_keep true v).
        by rewrite set_keep_true. }
      rewrite Hfeed. rewrite flush_kept by done.
      match goal with
      | |- context [run cfg ?s lines] =>
          destruct (IH s [v] eq_refl) as (st' & Hrun & Hrem & Hkept & Hdata & Hhdr & Hexact);
            [cbn; lia | by repeat constructor | by repeat constructor | done | done |]
      end.
      exists st'. split; [done |]. cbn [out printed kept_count removed_count] in *.
      split; [done |]. split; [rewrite Hkept; cbn [length]; lia |].
      destruct (data_lines_filter pend Hpd) as [Hd Hn].
      rewrite Hdata, Hhdr, !List.filter_app, Hd, Hn, app_nil_r.
      cbn [map List.filter forallb]. rewrite Hh, <- !app_assoc.
      split; [done |]. split; [done |].
      intros Hall'. apply andb_prop in Hall' as [_ Hall']. rewrite (Hexact Hall').
      by rewrite <- !app_assoc.
Qed.

Lemma is_record_spec (l : string) : is_record l = is_data l && integer_position l.
Proof.
  unfold is_record, record_of, is_data, integer_position, read_fields.
  destruct (startswith_hash l); [done |].
  destruct (split_tab l) as [| f0 [| f1 fs]]; cbn; [done | done |].
  by destruct (py_int f1).
Qed.

(** C3 as stated fails. The three data lines [chr2:10], [chr2:abc],
    [chr2:500] under thresholds of 20 meet the conditions, the two records
    being 490 apart, but only two of the three data lines are printed:
    the line with the position [abc] is skipped by the [except ValueError]
    clause and is neither kept nor removed. *)
Lemma non_integer_line_not_emitted :
  let cfg := {| sdr_chrom := "Chr1_RagTag"; thresh_sdr := 20; thresh_other := 20 |} in
  let lines := [data_line "chr2" "10"; data_line "chr2" "abc"; data_line "chr2" "500"] in
  position_sorted (records lines) = true
  /\ far_apart cfg (records lines) = true
  /\ List.filter is_data lines = lines
  /\ process_vcf cfg lines
     = Returned {| printed := [data_line "chr2" "10"; data_line "chr2" "500"];
                   kept_count := 2; removed_count := 0 |}.
Proof. vm_compute. repeat split. Qed.

(** C3, amended. When every data line has at least two fields,
    same-chromosome records arrive in non-decreasing position order and
    any two records of one chromosome are farther apart than the threshold
    of that chromosome, the data lines the pass prints are exactly the
    data lines of the input whose position field is an integer, verbatim
    and in input order; all of them are kept and nothing is removed. *)
Theorem well_spaced_pass_through (cfg : config) (lines : list string) :
  two_fields lines = true ->
  position_sorted (records lines) = true ->
  far_apart cfg (records lines) = true ->
  exists o,
    process_vcf cfg lines = Returned o
    /\ List.filter is_data (printed o)
       = List.filter (fun l => is_data l && integer_position l) lines
    /\ kept_count o
       = length (List.filter (fun l => is_data l && integer_position l) lines)
    /\ removed_count o = 0%nat.
Proof.
  intros Htf Hsorted Hfar.
  destruct (pass_through_run cfg lines initial [] eq_refl)
    as (st & Hrun & Hrem & Hkept & Hdata & _ & _);
    [cbn; lia | constructor | constructor
     | by apply sorted_far_apart_well_spaced | done |].
  exists (drain st). unfold process_vcf. rewrite Hrun. cbn in Hrem, Hkept, Hdata.
  assert (Hlines : map line (records lines)
                   = List.filter (fun l => is_data l && integer_position l) lines).
  { rewrite record_lines. apply List.filter_ext. intros l. apply is_record_spec. }
  rewrite Hdata, Hkept, <- Hlines, length_map. done.
Qed.

Lemma well_spaced_pass_through_witness :
  let cfg := {| sdr_chrom := "Chr1_RagTag"; thresh_sdr := 35; thresh_other := 20 |} in
  let lines := ["##fileformat=VCFv4.2"%string; data_line "chr2" "10";
                data_line "Chr1_RagTag" "20"; data_line "chr2" "abc";
                data_line "chr2" "31"; data_line "Chr1_RagTag" "56"] in
  exists o,
    process_vcf cfg lines = Returned o
    /\ List.filter is_data (printed o)
       = List.filter (fun l => is_data l && integer_position l) lines
    /\ kept_count o
       = length (List.filter (fun l => is_data l && integer_position l) lines)
    /\ removed_count o = 0%nat.
Proof. intros cfg lines. apply well_spaced_pass_through; reflexivity. Defined.

(** ** Header first, then a body of data lines *)

Lemma headers_first_split (lines : list string) :
  headers_first lines = true ->
  exists hdrs body,
    lines = hdrs ++ body
    /\ forallb startswith_hash hdrs = true
    /\ forallb is_data body = true.
Proof.
  induction lines as [| l lines IH]; cbn [headers_first].
  - intros _. by exists [], [].
  - destruct (startswith_hash l) eqn:Hh.
    + intros H. destruct (IH H) as (hdrs & body & -> & Hhdrs & Hbody).
      exists (l :: hdrs), body. cbn. by rewrite Hh.
    + intros H. exists [], (l :: lines). cbn. unfold is_data at 1. by rewrite Hh.
Qed.

Lemma run_headers (cfg : config) (hdrs body : list string) (st : state) :
  forallb startswith_hash hdrs = true ->
  run cfg st (hdrs ++ body)
  = run cfg {| buffer := buffer st;
               out := {| printed := printed (out st) ++ hdrs;
                         kept_count := kept_count (out st);
                         removed_count := removed_count (out st) |} |} body.
Proof.
  revert st. induction hdrs as [| l hdrs IH]; intros st H.
  - cbn. rewrite app_nil_r. by destruct st as [b []].
  - cbn [forallb] in H. apply andb_prop in H as [Hl H]. cbn [app run].
    destruct (step_header cfg st l Hl) as [-> _]. rewrite IH by done.
    cbn. by rewrite <- app_assoc.
Qed.

Lemma records_headers (hdrs body : list string) :
  forallb startswith_hash hdrs = true -> records (hdrs ++ body) = records body.
Proof.
  induction hdrs as [| l hdrs IH]; [done |]. cbn [forallb app].
  intros H. apply andb_prop in H as [Hl H]. rewrite records_cons.
  unfold record_of. rewrite Hl. by apply IH.
Qed.

Lemma run_body (cfg : config) (body : list string) (st : state) :
  two_fields body = true ->
  forallb is_data body = true ->
  run cfg st body = Returned (fold_left (feed_record cfg) (records body) st).
Proof.
  revert st. induction body as [| l body IH]; intros st Htf Hdata; [done |].
  apply two_fields_cons in Htf as [Hl Htf]. cbn [run forallb] in *.
  apply andb_prop in Hdata as [Hd Hdata]. rewrite records_cons.
  unfold is_data in Hd. apply negb_true_iff in Hd.
  destruct (step_cases cfg st l Hl)
    as [(Hh & _ & _) | [(_ & -> & ->) | (v & _ & -> & ->)]].
  - congruence.
  - by apply IH.
  - cbn [fold_left]. by apply IH.
Qed.

(** ** The first run over sorted, contiguous input *)

Lemma records_read_back (lines : list string) : Forall reads_back (records lines).
Proof.
  induction lines as [| l lines IH]; [constructor |].
  rewrite records_cons. destruct (record_of l) as [v |] eqn:Hv; [| done].
  constructor; [| done]. unfold reads_back.
  destruct (record_of_inv l v Hv) as (_ & _ & -> & _). done.
Qed.

Lemma records_of_lines (rs : list variant) :
  Forall reads_back rs -> records (map line rs) = rs.
Proof.
  induction 1 as [| v rs Hv _ IH]; [done |].
  cbn [map]. rewrite records_cons, Hv. by rewrite IH.
Qed.

Lemma lines_of_records (rs : list variant) :
  Forall reads_back rs ->
  two_fields (map line rs) = true
  /\ forallb is_data (map line rs) = true
  /\ Forall (fun v => keep v = true) rs.
Proof.
  induction 1 as [| v rs Hv _ (IH1 & IH2 & IH3)]; [done |].
  destruct (record_of_inv _ _ Hv) as (Hh & Hr & _ & Hk).
  unfold two_fields in *. cbn [map forallb]. rewrite IH1, IH2.
  unfold is_data. rewrite Hh. cbn [negb orb andb].
  split; [| split; [done | by constructor]].
  rewrite andb_true_r. apply Nat.leb_le.
  unfold read_fields in Hr. destruct (split_tab (line v)) as [| f0 [| f1 fs]]; cbn in *;
    [discriminate | discriminate | lia].
Qed.

Lemma well_spaced_snoc (cfg : config) (E : list variant) (c : variant) :
  well_spaced cfg E = true ->
  (forall e, last E = Some e -> clear cfg e c = true) ->
  well_spaced cfg (E ++ [c]) = true.
Proof.
  induction E as [| a E IH]; [done |]. cbn [well_spaced app].
  intros H Hlast. apply andb_prop in H as [Ha H].
  destruct E as [| b E].
  - cbn. rewrite andb_true_r. by apply Hlast.
  - cbn [app] in *. rewrite Ha. cbn [andb]. apply IH; [done |].
    intros e He. apply Hlast. by rewrite last_cons_cons.
Qed.

(** Once a pending record is clear of its successor, it is clear of every
    later record: another chromosome never returns to this one, and the
    same chromosome only moves further away. *)
Lemma later_clear (cfg : config) (c y : variant) (rs : list variant) :
  position_sorted (c :: y :: rs) = true ->
  chrom_contiguous (c :: y :: rs) = true ->
  clear cfg c y = true ->
  forallb (clear cfg c) (y :: rs) = true.
Proof.
  intros Hsorted Hcontig Hcy. cbn [forallb]. rewrite Hcy. cbn [andb].
  apply forallb_forall. intros r Hr.
  cbn [position_sorted chrom_contiguous] in Hsorted, Hcontig.
  apply andb_prop in Hsorted as [_ Hsorted]. apply andb_prop in Hsorted as [Hy _].
  apply andb_prop in Hcontig as [Hc _].
  rewrite forallb_forall in Hy. specialize (Hy r Hr).
  unfold clear, conflicts in *. fold (same_chrom c r). fold (same_chrom c y) in Hcy.
  destruct (same_chrom c r) eqn:Hcr; [| done]. cbn [andb negb].
  assert (Hcy' : same_chrom c y = true).
  { apply orb_prop in Hc as [Hc | Hc]; [done |].
    cbn [forallb] in Hc. apply andb_prop in Hc as [_ Hc].
    rewrite forallb_forall in Hc. specialize (Hc r Hr). by rewrite Hcr in Hc. }
  rewrite Hcy' in Hcy. cbn [andb] in Hcy. rewrite negb_involutive in *.
  unfold same_chrom in *. apply String.eqb_eq in Hcr, Hcy'.
  assert (Hyr : chrom y = chrom r) by congruence.
  rewrite Hyr, String.eqb_refl in Hy. cbn in Hy. apply Z.leb_le in Hy.
  rewrite Hyr in Hcy. rewrite Z.gtb_ltb in *. apply Z.ltb_lt in Hcy. apply Z.ltb_lt. lia.
Qed.

Lemma not_kept_filter (f : variant -> bool) (l : list variant) :
  Forall (fun x => keep x = false) l -> Forall (fun x => keep x = false) (List.filter f l).
Proof.
  rewrite !Forall_forall. intros H x Hx.
  apply list_elem_of_In, filter_In in Hx as [Hx _]. by apply H, list_elem_of_In.
Qed.

Lemma not_kept_map (l : list variant) :
  Forall (fun x => keep x = false) (map (set_keep false) l).
Proof. induction l; by constructor. Qed.

(** What a record does to a buffer [older ++ [c]] whose older entries are
    all marked: nothing of [older] is printed, and [c] is either retained
    and marked, or flushed. *)
Lemma feed_record_pending (cfg : config) (older : list variant) (c y : variant) (o : sink) :
  Forall (fun x => keep x = false) older ->
  exists (older' : list variant) (k : bool) (n : nat),
    Forall (fun x => keep x = false) older'
    /\ feed_record cfg {| buffer := older ++ [c]; out := o |} y
       = if clear cfg c y
         then {| buffer := older' ++ [set_keep k y];
                 out := flush {| printed := printed o;
                                 kept_count := kept_count o;
                                 removed_count := removed_count o + n |} c |}
         else {| buffer := older' ++ [set_keep k y];
                 out := {| printed := printed o;
                           kept_count := kept_count o;
                           removed_count := removed_count o + n |} |}.
Proof.
  intros Holder. unfold feed_record. rewrite feed_spec. cbn zeta. cbn [buffer out].
  rewrite !List.filter_app, fold_left_app. cbn [List.filter].
  rewrite (flush_removed (List.filter _ older)) by by apply not_kept_filter.
  unfold clear. set (f := conflicts (chrom y) (pos y) (current_thresh cfg (chrom y))).
  destruct (f c); cbn [negb fold_left].
  - eexists (map (set_keep false) (List.filter f older) ++ [set_keep false c]), _, _.
    split.
    + apply Forall_app. split; [apply not_kept_map | by repeat constructor].
    + rewrite map_app. reflexivity.
  - eexists (map (set_keep false) (List.filter f older)), _, _.
    split; [apply not_kept_map |].
    rewrite app_nil_r. reflexivity.
Qed.

Lemma clear_set_keep (cfg : config) (e y : variant) (k : bool) :
  clear cfg e (set_keep k y) = clear cfg e y.
Proof. reflexivity. Qed.

Lemma first_run (cfg : config) (rs : list variant) :
  forall (older : list variant) (c : variant) (E : list variant) (o : sink),
    Forall (fun x => keep x = false) older ->
    Forall reads_back rs ->
    reads_back (set_keep true c) ->
    position_sorted (c :: rs) = true ->
    chrom_contiguous (c :: rs) = true ->
    well_spaced cfg E = true ->
    (forall e, last E = Some e ->
               forallb (clear cfg e) ((if keep c then [c] else []) ++ rs) = true) ->
    exists F,
      let o' := drain (fold_left (feed_record cfg) rs {| buffer := older ++ [c]; out := o |}) in
      printed o' = printed o ++ map line F
      /\ kept_count o' = (kept_count o + length F)%nat
      /\ well_spaced cfg (E ++ F) = true
      /\ Forall reads_back F.
Proof.
  induction rs as [| y rs IH]; intros older c E o Holder Hrs Hc Hsorted Hcontig HE Hlast.
  - cbn [fold_left]. unfold drain. cbn [buffer out]. rewrite fold_left_app.
    rewrite (flush_removed older) by done. cbn [fold_left]. unfold flush.
    destruct (keep c) eqn:Hk; cbn [printed kept_count].
    + exists [c]. rewrite set_keep_true in Hc by done. cbn [map length].
      split; [done |]. split; [lia |]. split; [| by repeat constructor].
      apply well_spaced_snoc; [done |]. intros e He.
      specialize (Hlast e He). cbn in Hlast. by rewrite andb_true_r in Hlast.
    + exists []. cbn [map length]. rewrite !app_nil_r. repeat split; [lia | done | constructor].
  - apply Forall_cons in Hrs as [Hy Hrs].
    assert (Hky : keep y = true) by (by destruct (record_of_inv _ _ Hy) as (_ & _ & _ & ?)).
    assert (Hsorted' : forall k, position_sorted (set_keep k y :: rs) = true).
    { intros k. cbn [position_sorted] in Hsorted. by apply andb_prop in Hsorted as [_ ?]. }
    assert (Hcontig' : forall k, chrom_contiguous (set_keep k y :: rs) = true).
    { intros k. cbn [chrom_contiguous] in Hcontig. by apply andb_prop in Hcontig as [_ ?]. }
    assert (Hy' : forall k, reads_back (set_keep true (set_keep k y))).
    { intros k. change (set_keep true (set_keep k y)) with (set_keep true y).
      by rewrite set_keep_true. }
    assert (Hsame : forall e,
               last E = Some e ->
               forall k, forallb (clear cfg e)
                           ((if keep (set_keep k y) then [set_keep k y] else []) ++ rs) = true).
    { intros e He k. specialize (Hlast e He). rewrite forallb_app in Hlast.
      apply andb_prop in Hlast as [_ Hlast]. cbn [forallb] in Hlast.
      apply andb_prop in Hlast as [Hey Hlast].
      rewrite forallb_app, Hlast, andb_true_r.
      destruct (keep (set_keep k y)); [| done]. cbn [forallb].
      by rewrite clear_set_keep, Hey. }
    cbn [fold_left].
    destruct (feed_record_pending cfg older c y o Holder) as (older' & k & n & Holder' & ->).
    destruct (clear cfg c y) eqn:Hcy; [destruct (keep c) eqn:Hk |].
    + (* [c] is flushed and printed *)
      unfold flush. rewrite Hk. cbn [printed kept_count removed_count].
      rewrite set_keep_true in Hc by done.
      destruct (IH older' (set_keep k y) (E ++ [c])
                  {| printed := printed o ++ [line c];
                     kept_count := S (kept_count o);
                     removed_count := removed_count o + n |})
        as (F & Hp & Hkept & Hws & HF); auto.
      * apply well_spaced_snoc; [done |]. intros e He.
        specialize (Hlast e He). cbn [app forallb] in Hlast.
        by apply andb_prop in Hlast as [? _].
      * intros e He. rewrite last_snoc in He. injection He as <-.
        pose proof (later_clear cfg c y rs Hsorted Hcontig Hcy) as Hall.
        cbn [forallb] in Hall. apply andb_prop in Hall as [_ Hall].
        rewrite forallb_app, Hall, andb_true_r.
        destruct (keep (set_keep k y)); [| done]. cbn [forallb].
        by rewrite clear_set_keep, Hcy.
      * exists (c :: F). cbn zeta in *. cbn [printed kept_count] in *.
        rewrite Hp, Hkept, <- app_assoc. cbn [map length app].
        split; [done |]. split; [lia |]. split; [| by constructor].
        by rewrite <- app_assoc in Hws.
    + (* [c] is flushed and counted as removed *)
      unfold flush. rewrite Hk. cbn [printed kept_count removed_count].
      destruct (IH older' (set_keep k y) E
                  {| printed := printed o;
                     kept_count := kept_count o;
                     removed_count := S (removed_count o + n) |})
        as (F & Hp & Hkept & Hws & HF); auto.
      exists F. by cbn zeta in *.
    + (* [c] conflicts with [y] and stays pending, marked *)
      destruct (IH older' (set_keep k y) E
                  {| printed := printed o;
                     kept_count := kept_count o;
                     removed_count := removed_count o + n |})
        as (F & Hp & Hkept & Hws & HF); auto.
      exists F. by cbn zeta in *.
Qed.

(** ** Running the filter on its own output *)

(** C2 as stated fails. With thresholds of 20, the records [chrA:10],
    [chrB:5], [chrB:6], [chrA:12] are in non-decreasing position order on
    each chromosome; the pass keeps the two [chrA] records, because the
    first was flushed when [chrB] began, and a second pass over that
    output removes both of them.  A [#] line after a data line fails
    differently: it is printed before the pending record, so the second
    pass prints it one place earlier. *)
Lemma rerun_removes_more :
  let cfg := {| sdr_chrom := "Chr1_RagTag"; thresh_sdr := 20; thresh_other := 20 |} in
  let lines := [data_line "chrA" "10"; data_line "chrB" "5";
                data_line "chrB" "6"; data_line "chrA" "12"] in
  let output := [data_line "chrA" "10"; data_line "chrA" "12"] in
  let lines' := [data_line "chrA" "10"; data_line "chrA" "100";
                 "##note"%string; data_line "chrA" "200"] in
  let output' := [data_line "chrA" "10"; "##note"%string;
                  data_line "chrA" "100"; data_line "chrA" "200"] in
  (position_sorted (records lines) = true
   /\ process_vcf cfg lines
      = Returned {| printed := output; kept_count := 2; removed_count := 2 |}
   /\ process_vcf cfg output
      = Returned {| printed := []; kept_count := 0; removed_count := 2 |})
  /\ (position_sorted (records lines') = true
      /\ process_vcf cfg lines'
         = Returned {| printed := output'; kept_count := 3; removed_count := 0 |}
      /\ process_vcf cfg output'
         = Returned {| printed := ["##note"%string; data_line "chrA" "10";
                                   data_line "chrA" "100"; data_line "chrA" "200"];
                       kept_count := 3; removed_count := 0 |}).
Proof. vm_compute. repeat split. Qed.

(** C2, amended. When the header lines come first, the records of each
    chromosome form one block of the stream, and positions within a
    chromosome are non-decreasing, a second pass over the output of the
    first, with the same thresholds, prints exactly that output again,
    keeps every record and removes none. *)
Theorem rerun_is_identity (cfg : config) (lines : list string) :
  two_fields lines = true ->
  headers_first lines = true ->
  chrom_contiguous (records lines) = true ->
  position_sorted (records lines) = true ->
  exists o,
    process_vcf cfg lines = Returned o
    /\ process_vcf cfg (printed o)
       = Returned {| printed := printed o; kept_count := kept_count o; removed_count := 0 |}.
Proof.
  intros Htf Hfirst Hcontig Hsorted.
  destruct (headers_first_split lines Hfirst) as (hdrs & body & -> & Hhdrs & Hbody).
  rewrite records_headers in * by done.
  unfold two_fields in Htf. rewrite forallb_app in Htf. apply andb_prop in Htf as [_ Htf].
  pose proof (records_read_back body) as Hback.
  set (st := {| buffer := buffer initial;
                out := {| printed := printed (out initial) ++ hdrs;
                          kept_count := kept_count (out initial);
                          removed_count := removed_count (out initial) |} |}).
  assert (Hfirst_run : exists F,
             printed (drain (fold_left (feed_record cfg) (records body) st))
             = hdrs ++ map line F
             /\ kept_count (drain (fold_left (feed_record cfg) (records body) st)) = length F
             /\ well_spaced cfg F = true
             /\ Forall reads_back F).
  { destruct (records body) as [| r rs].
    { exists []. cbn. rewrite app_nil_r. repeat split. constructor. }
    apply Forall_cons in Hback as [Hr Hrs].
    assert (Hkr : keep r = true) by (by destruct (record_of_inv _ _ Hr) as (_ & _ & _ & ?)).
    cbn [fold_left].
    assert (Hfeed : feed_record cfg st r = {| buffer := [] ++ [r]; out := out st |}).
    { unfold feed_record. rewrite feed_spec. cbn. by destruct r; cbn in *; subst. }
    rewrite Hfeed.
    destruct (first_run cfg rs [] r [] (out st)) as (F & Hp & Hk & Hws & HF); auto.
    - by rewrite set_keep_true.
    - discriminate.
    - exists F. cbn zeta in *. by cbn in *. }
  destruct Hfirst_run as (F & Hp & Hk & Hws & HF).
  exists (drain (fold_left (feed_record cfg) (records body) st)).
  unfold process_vcf. rewrite run_headers by done. fold st.
  rewrite run_body by done. split; [done |].
  rewrite Hp, Hk, run_headers by done. fold st.
  destruct (lines_of_records F HF) as (HtfF & HdataF & _).
  destruct (pass_through_run cfg (map line F) st [] eq_refl)
    as (st' & -> & Hrem & Hkept & _ & _ & Hexact);
    [cbn; lia | constructor | constructor | by rewrite records_of_lines | done |].
  rewrite records_of_lines in * by done.
  specialize (Hexact HdataF). cbn in Hrem, Hkept, Hexact.
  destruct (drain st') as [pr kc rc]. cbn in *. by subst.
Qed.

Lemma rerun_is_identity_witness :
  let cfg := {| sdr_chrom := "Chr1_RagTag"; thresh_sdr := 35; thresh_other := 20 |} in
  let lines := ["##fileformat=VCFv4.2"%string;
                data_line "Chr1_RagTag" "10"; data_line "Chr1_RagTag" "40";
                data_line "Chr1_RagTag" "90"; data_line "chr2" "5"; data_line "chr2" "x";
                data_line "chr2" "30"; data_line "chr2" "31"] in
  exists o,
    process_vcf cfg lines = Returned o
    /\ process_vcf cfg (printed o)
       = Returned {| printed := printed o; kept_count := kept_count o; removed_count := 0 |}.
Proof. intros cfg lines. apply rerun_is_identity; reflexivity. Defined.

(** * Further properties of the filtering pass *)

(** ** What any run prints *)

Lemma flush_spec (l : list variant) (o : sink) :
  fold_left flush l o
  = {| printed := printed o ++ map line (List.filter keep l);
       kept_count := kept_count o + length (List.filter keep l);
       removed_count := removed_count o + length (List.filter (fun v => negb (keep v)) l) |}.
Proof.
  revert o. induction l as [| v l IH]; intros o; cbn [fold_left List.filter].
  - cbn. rewrite app_nil_r, !Nat.add_0_r. by destruct o.
  - rewrite IH. unfold flush. destruct (keep v); cbn.
    + rewrite <- app_assoc. f_equal. lia.
    + f_equal. lia.
Qed.

Lemma sublist_double_filter {A : Type} (f g : A -> bool) (l : list A) :
  sublist (List.filter f (List.filter g l)) (List.filter f l).
Proof.
  induction l as [| x l IH]; cbn [List.filter]; [constructor |].
  destruct (g x); cbn [List.filter]; destruct (f x); try done.
  - by apply sublist_skip.
  - by apply sublist_cons.
Qed.

Lemma sublist_map {A B : Type} (f : A -> B) (l1 l2 : list A) :
  sublist l1 l2 -> sublist (map f l1) (map f l2).
Proof. induction 1; cbn; by constructor. Qed.

Lemma filter_map_set_keep (l : list variant) :
  List.filter keep (map (set_keep false) l) = [].
Proof. induction l; by cbn. Qed.

Lemma data_lines_of_filter (f : variant -> bool) (l : list variant) :
  Forall (fun v => is_data (line v) = true) l ->
  Forall (fun v => is_data (line v) = true) (List.filter f l).
Proof.
  rewrite !Forall_forall. intros H x Hx.
  apply list_elem_of_In, filter_In in Hx as [Hx _]. by apply H, list_elem_of_In.
Qed.

Lemma feed_record_data_lines (cfg : config) (st : state) (v : variant) :
  is_data (line v) = true ->
  Forall (fun x => is_data (line x) = true) (buffer st) ->
  Forall (fun x => is_data (line x) = true) (buffer (feed_record cfg st v)).
Proof.
  intros Hv Hst. unfold feed_record. rewrite feed_spec. cbn [buffer].
  apply Forall_app. split; [| by repeat constructor].
  apply Forall_forall. intros x Hx. apply list_elem_of_In, in_map_iff in Hx as (y & <- & Hy).
  apply filter_In in Hy as [Hy _]. rewrite Forall_forall in Hst.
  apply list_elem_of_In in Hy. exact (Hst y Hy).
Qed.

Lemma run_output_shape (cfg : config) (lines : list string) :
  forall st : state,
    Forall (fun v => is_data (line v) = true) (buffer st) ->
    two_fields lines = true ->
    exists st' F,
      run cfg st lines = Returned st'
      /\ List.filter startswith_hash (printed (drain st'))
         = List.filter startswith_hash (printed (out st)) ++ List.filter startswith_hash lines
      /\ List.filter is_data (printed (drain st'))
         = List.filter is_data (printed (out st)) ++ F
      /\ sublist F (map line (List.filter keep (buffer st)) ++ map line (records lines))
      /\ kept_count (drain st') = (kept_count (out st) + length F)%nat.
Proof.
  induction lines as [| l lines IH]; intros st Hbuf Htf.
  - exists st, (map line (List.filter keep (buffer st))). split; [done |].
    unfold drain. rewrite flush_spec. cbn [printed kept_count].
    destruct (data_lines_filter _ (data_lines_of_filter keep _ Hbuf)) as [Hd Hn].
    rewrite !List.filter_app, Hd, Hn, !app_nil_r, length_map. done.
  - apply two_fields_cons in Htf as [Hl Htf]. cbn [run]. rewrite records_cons.
    destruct (step_cases cfg st l Hl)
      as [(Hh & -> & ->) | [(Hh & -> & ->) | (v & Hh & Hrec & ->)]].
    + destruct (IH {| buffer := buffer st; out := print l (out st) |} Hbuf Htf)
        as (st' & F & Hrun & Hhdr & Hdata & Hsub & Hkept).
      exists st', F. split; [done |]. cbn [out print printed kept_count buffer] in *.
      rewrite Hhdr, Hdata, !List.filter_app. cbn [List.filter].
      unfold is_data at 2. rewrite Hh. cbn [negb]. rewrite app_nil_r, <- app_assoc. done.
    + destruct (IH st Hbuf Htf) as (st' & F & Hrun & Hhdr & Hdata & Hsub & Hkept).
      exists st', F. split; [done |]. cbn [List.filter]. by rewrite Hh.
    + rewrite Hrec. pose proof (record_is_data l v Hrec) as Hdv.
      destruct (IH (feed_record cfg st v) (feed_record_data_lines cfg st v Hdv Hbuf) Htf)
        as (st' & F & Hrun & Hhdr & Hdata & Hsub & Hkept).
      unfold feed_record in Hhdr, Hdata, Hsub, Hkept. rewrite feed_spec in Hhdr, Hdata, Hsub, Hkept.
      cbn [buffer out] in Hhdr, Hdata, Hsub, Hkept. rewrite flush_spec in Hhdr, Hdata, Hkept.
      cbn [printed kept_count] in Hhdr, Hdata, Hkept.
      set (f := conflicts (chrom v) (pos v) (current_thresh cfg (chrom v))) in *.
      set (flushed := List.filter keep (List.filter (fun x => negb (f x)) (buffer st))) in *.
      assert (Hfl : Forall (fun x => is_data (line x) = true) flushed).
      { by apply data_lines_of_filter, data_lines_of_filter. }
      destruct (data_lines_filter _ Hfl) as [Hd Hn].
      exists st', (map line flushed ++ F). split; [done |].
      rewrite Hhdr, Hdata, !List.filter_app, Hd, Hn, app_nil_r. cbn [List.filter].
      rewrite Hh, Hkept, length_app, length_map, <- !app_assoc.
      split; [done |]. split; [done |]. split; [| lia].
      apply sublist_app.
      * apply sublist_map, sublist_double_filter.
      * rewrite List.filter_app, filter_map_set_keep in Hsub. cbn [app map] in Hsub.
        etrans; [exact Hsub |]. cbn [List.filter].
        destruct (forallb _ _); cbn [map app];
          [| apply sublist_cons]; destruct (record_of_inv l v Hrec) as (_ & _ & _ & _); done.
Qed.

(** X1. Whatever the records and the thresholds, the pass prints every
    header line of the input, and the header lines it prints are exactly
    those, in input order. *)
Theorem headers_pass_through (cfg : config) (lines : list string) :
  two_fields lines = true ->
  exists o,
    process_vcf cfg lines = Returned o
    /\ List.filter startswith_hash (printed o) = List.filter startswith_hash lines.
Proof.
  intros Htf.
  destruct (run_output_shape cfg lines initial (Forall_nil_2 _) Htf)
    as (st & F & Hrun & Hhdr & _).
  exists (drain st). unfold process_vcf. by rewrite Hrun.
Qed.

Lemma headers_pass_through_witness :
  let cfg := {| sdr_chrom := "Chr1_RagTag"; thresh_sdr := 35; thresh_other := 20 |} in
  let lines := ["##fileformat=VCFv4.2"%string; data_line "chr2" "10";
                "#CHROM"%string; data_line "chr2" "15"; data_line "chr2" "x"] in
  exists o,
    process_vcf cfg lines = Returned o
    /\ List.filter startswith_hash (printed o) = List.filter startswith_hash lines.
Proof. intros cfg lines. apply headers_pass_through. reflexivity. Defined.

(** X2. Whatever the order of the input, the data lines the pass prints
    are lines of records of the input, each at most once and in input
    order, and the kept count is the number of data lines printed. *)
Theorem printed_records_in_order (cfg : config) (lines : list string) :
  two_fields lines = true ->
  exists o,
    process_vcf cfg lines = Returned o
    /\ sublist (List.filter is_data (printed o)) (List.filter is_record lines)
    /\ kept_count o = length (List.filter is_data (printed o)).
Proof.
  intros Htf.
  destruct (run_output_shape cfg lines initial (Forall_nil_2 _) Htf)
    as (st & F & Hrun & _ & Hdata & Hsub & Hkept).
  exists (drain st). unfold process_vcf. rewrite Hrun. split; [done |].
  cbn in Hdata, Hsub, Hkept. rewrite Hdata, Hkept, <- record_lines. done.
Qed.

Lemma printed_records_in_order_witness :
  let cfg := {| sdr_chrom := "Chr1_RagTag"; thresh_sdr := 35; thresh_other := 20 |} in
  let lines := [data_line "chr2" "100"; data_line "chr3" "7"; "#note"%string;
                data_line "chr2" "10"; data_line "chr2" "15"; data_line "chr2" "90"] in
  exists o,
    process_vcf cfg lines = Returned o
    /\ sublist (List.filter is_data (printed o)) (List.filter is_record lines)
    /\ kept_count o = length (List.filter is_data (printed o)).
Proof. intros cfg lines. apply printed_records_in_order. reflexivity. Defined.

(** ** The shape of the pending buffer *)

Lemma feed_record_conflicting (cfg : config) (st : state) (v : variant) :
  let f := conflicts (chrom v) (pos v) (current_thresh cfg (chrom v)) in
  buffer (feed_record cfg st v)
  = map (set_keep false) (List.filter f (buffer st))
    ++ [set_keep (forallb (fun x => negb (f x)) (buffer st)) v].
Proof. intros f. unfold feed_record. by rewrite feed_spec. Qed.

(** X3. After every prefix of the input, all pending records lie on one
    chromosome, and a buffer in which some record is still marked as kept
    holds that record alone. *)
Theorem pending_one_chromosome (cfg : config) (lines : list string) (n : nat) :
  two_fields lines = true ->
  exists st,
    run cfg initial (take n lines) = Returned st
    /\ (forall a b, In a (buffer st) -> In b (buffer st) -> chrom a = chrom b)
    /\ (forall a, In a (buffer st) -> keep a = true -> buffer st = [a]).
Proof.
  intros Htf.
  apply (run_invariant cfg
           (fun st => (forall a b, In a (buffer st) -> In b (buffer st) -> chrom a = chrom b)
                      /\ (forall a, In a (buffer st) -> keep a = true -> buffer st = [a]))).
  - intros st l H. exact H.
  - intros st v _. rewrite feed_record_conflicting.
    set (f := conflicts (chrom v) (pos v) (current_thresh cfg (chrom v))).
    assert (Hchrom : forall a,
               In a (map (set_keep false) (List.filter f (buffer st))
                     ++ [set_keep (forallb (fun x => negb (f x)) (buffer st)) v]) ->
               chrom a = chrom v).
    { intros a Ha. apply in_app_or in Ha as [Ha | [<- | []]]; [| done].
      apply in_map_iff in Ha as (x & <- & Hx). apply filter_In in Hx as [_ Hx].
      unfold f, conflicts in Hx. apply andb_prop in Hx as [Hx _].
      by apply String.eqb_eq in Hx. }
    split.
    + intros a b Ha Hb. by rewrite (Hchrom a Ha), (Hchrom b Hb).
    + intros a Ha Hk. apply in_app_or in Ha as [Ha | [<- | []]].
      * apply in_map_iff in Ha as (x & <- & _). discriminate.
      * cbn in Hk. rewrite Hk. by destruct (filter_nothing f _ Hk) as [-> _].
  - by apply two_fields_take.
  - by cbn.
Qed.

Lemma pending_one_chromosome_witness :
  exists st,
    run {| sdr_chrom := "Chr1_RagTag"; thresh_sdr := 35; thresh_other := 20 |} initial
        (take 4 [data_line "chr3" "1"; data_line "chr2" "10"; data_line "chr2" "15";
                 data_line "chr2" "30"; data_line "chr2" "100"])
    = Returned st
    /\ (forall a b, In a (buffer st) -> In b (buffer st) -> chrom a = chrom b)
    /\ (forall a, In a (buffer st) -> keep a = true -> buffer st = [a]).
Proof. apply pending_one_chromosome. reflexivity. Defined.

(** ** Header lines do not disturb the records *)

Lemma feed_record_same_records (cfg : config) (st1 st2 : state) (v : variant) :
  same_records st1 st2 -> same_records (feed_record cfg st1 v) (feed_record cfg st2 v).
Proof.
  intros (Hb & Hp & Hk & Hr). unfold same_records, feed_record.
  rewrite !feed_spec. cbn [buffer out]. rewrite !flush_spec. cbn [printed kept_count removed_count].
  rewrite !List.filter_app, Hb, Hp, Hk, Hr. done.
Qed.

Lemma drain_same_records (st1 st2 : state) :
  same_records st1 st2 ->
  List.filter is_data (printed (drain st1)) = List.filter is_data (printed (drain st2))
  /\ kept_count (drain st1) = kept_count (drain st2)
  /\ removed_count (drain st1) = removed_count (drain st2).
Proof.
  intros (Hb & Hp & Hk & Hr). unfold drain. rewrite !flush_spec.
  cbn [printed kept_count removed_count]. rewrite !List.filter_app, Hb, Hp, Hk, Hr. done.
Qed.

Lemma run_as_records (cfg : config) (lines : list string) :
  forall st1 st2 : state,
    same_records st1 st2 ->
    two_fields lines = true ->
    exists st', run cfg st1 lines = Returned st'
                /\ same_records st' (fold_left (feed_record cfg) (records lines) st2).
Proof.
  induction lines as [| l lines IH]; intros st1 st2 Hsame Htf; [by exists st1 |].
  apply two_fields_cons in Htf as [Hl Htf]. cbn [run]. rewrite records_cons.
  destruct (step_cases cfg st1 l Hl)
    as [(Hh & -> & ->) | [(Hh & -> & ->) | (v & Hh & -> & ->)]].
  - apply IH; [| done]. destruct Hsame as (Hb & Hp & Hk & Hr).
    unfold same_records. cbn [buffer out print printed kept_count removed_count].
    rewrite List.filter_app. cbn [List.filter]. unfold is_data at 2.
    rewrite Hh. cbn [negb]. by rewrite app_nil_r.
  - by apply IH.
  - cbn [fold_left]. apply IH; [| done]. by apply feed_record_same_records.
Qed.

(** ** Sorted input: a record is kept when both neighbours are clear *)

Lemma feed_record_sorted (cfg : config) (older : list variant) (c y : variant) (o : sink) :
  Forall (fun b => keep b = false /\ chrom b = chrom c /\ pos b <= pos c) older ->
  (same_chrom c y = true -> pos c <= pos y) ->
  exists (older' : list variant) (n : nat),
    Forall (fun b => keep b = false /\ chrom b = chrom y /\ pos b <= pos y) older'
    /\ feed_record cfg {| buffer := older ++ [c]; out := o |} y
       = {| buffer := older' ++ [set_keep (clear cfg c y) y];
            out := if clear cfg c y
                   then flush {| printed := printed o;
                                 kept_count := kept_count o;
                                 removed_count := removed_count o + n |} c
                   else {| printed := printed o;
                           kept_count := kept_count o;
                           removed_count := removed_count o + n |} |}.
Proof.
  intros Holder Hcy. unfold feed_record. rewrite feed_spec. cbn zeta. cbn [buffer out].
  set (f := conflicts (chrom y) (pos y) (current_thresh cfg (chrom y))).
  rewrite !List.filter_app, forallb_app, fold_left_app. cbn [List.filter forallb].
  assert (Hnk : Forall (fun x => keep x = false) older).
  { eapply Forall_impl; [exact Holder |]. by intros x (? & _). }
  rewrite (flush_removed (List.filter _ older)) by by apply not_kept_filter.
  unfold clear. fold f. destruct (f c) eqn:Hfc; cbn [negb fold_left].
  - (* [c] conflicts: it stays, marked, behind [y] *)
    assert (Hsame : chrom c = chrom y /\ pos c <= pos y).
    { unfold f, conflicts in Hfc. apply andb_prop in Hfc as [Hfc _].
      split; [by apply String.eqb_eq |]. apply Hcy. exact Hfc. }
    destruct Hsame as [Hch Hpos].
    eexists (map (set_keep false) (List.filter f older) ++ [set_keep false c]), _.
    split.
    + apply Forall_app. split; [| by repeat constructor].
      apply Forall_forall. intros x Hx.
      apply list_elem_of_In, in_map_iff in Hx as (b & <- & Hb).
      apply filter_In in Hb as [Hb _]. rewrite Forall_forall in Holder.
      apply list_elem_of_In in Hb. destruct (Holder b Hb) as (_ & Hbc & Hbp).
      cbn. repeat split; [congruence | lia].
    + rewrite map_app, andb_false_r. reflexivity.
  - (* [c] is clear of [y], and so is everything behind [c] *)
    assert (Hall : forallb (fun x => negb (f x)) older = true).
    { apply forallb_forall. intros b Hb. rewrite Forall_forall in Holder.
      apply list_elem_of_In in Hb. destruct (Holder b Hb) as (_ & Hbc & Hbp).
      unfold f, conflicts in *. rewrite Hbc.
      destruct (String.eqb (chrom c) (chrom y)) eqn:Hch; [| done].
      cbn [andb] in *. apply negb_false_iff in Hfc. rewrite Z.gtb_ltb in *.
      apply Z.ltb_lt in Hfc. rewrite negb_involutive. apply Z.ltb_lt.
      specialize (Hcy Hch). lia. }
    destruct (filter_nothing f older Hall) as [-> ->].
    exists [], (length older). split; [constructor |].
    rewrite Hall. reflexivity.
Qed.

Lemma isolated_from_set_keep (cfg : config) (b k : bool) (y : variant) (rs : list variant) :
  map line (isolated_from cfg b (set_keep k y) rs) = map line (isolated_from cfg b y rs).
Proof.
  destruct rs as [| z rs]; cbn [isolated_from].
  - by destruct b.
  - change (clear cfg (set_keep k y) z) with (clear cfg y z).
    rewrite !map_app. by destruct (b && clear cfg y z).
Qed.

Lemma sorted_run_isolated (cfg : config) (rs : list variant) :
  forall (older : list variant) (c : variant) (o : sink),
    Forall (fun b => keep b = false /\ chrom b = chrom c /\ pos b <= pos c) older ->
    position_sorted (c :: rs) = true ->
    let o' := drain (fold_left (feed_record cfg) rs {| buffer := older ++ [c]; out := o |}) in
    printed o' = printed o ++ map line (isolated_from cfg (keep c) c rs)
    /\ kept_count o' = (kept_count o + length (map line (isolated_from cfg (keep c) c rs)))%nat.
Proof.
  induction rs as [| y rs IH]; intros older c o Holder Hsorted.
  - cbn [fold_left isolated_from]. unfold drain. cbn [buffer out].
    rewrite flush_spec. cbn zeta. cbn [printed kept_count].
    assert (Hnone : List.filter keep older = []).
    { clear -Holder. induction Holder as [| b older (Hb & _) _ IH]; [done |].
      cbn. by rewrite Hb. }
    rewrite List.filter_app, Hnone. cbn [List.filter app].
    destruct (keep c); cbn; split; (done || lia).
  - cbn [position_sorted forallb] in Hsorted.
    apply andb_prop in Hsorted as [Hcy Hsorted]. apply andb_prop in Hcy as [Hcy _].
    assert (Hle : same_chrom c y = true -> pos c <= pos y).
    { intros Hs. rewrite Hs in Hcy. cbn in Hcy. by apply Z.leb_le. }
    destruct (feed_record_sorted cfg older c y o Holder Hle) as (older' & n & Holder' & Hfeed).
    cbn [fold_left]. rewrite Hfeed.
    specialize (IH older' (set_keep (clear cfg c y) y)
                  (if clear cfg c y
                   then flush {| printed := printed o;
                                 kept_count := kept_count o;
                                 removed_count := removed_count o + n |} c
                   else {| printed := printed o;
                           kept_count := kept_count o;
                           removed_count := removed_count o + n |})
                  Holder' Hsorted).
    cbn zeta in *. destruct IH as [Hp Hk]. rewrite Hp, Hk.
    cbn [keep set_keep isolated_from]. rewrite isolated_from_set_keep, map_app, length_app.
    unfold flush. destruct (clear cfg c y), (keep c); cbn;
      rewrite <- ?app_assoc; split; (done || lia).
Qed.

Lemma isolated_from_members (cfg : config) (rs : list variant) :
  forall (b : bool) (c x : variant), In x (isolated_from cfg b c rs) -> In x (c :: rs).
Proof.
  induction rs as [| y rs IH]; intros b c x Hx; cbn [isolated_from] in Hx.
  - destruct b; [| done]. destruct Hx as [<- | []]. by left.
  - apply in_app_or in Hx as [Hx | Hx].
    + destruct (b && clear cfg c y); [| done]. destruct Hx as [<- | []]. by left.
    + right. by apply (IH _ _ _ Hx).
Qed.

(** The common core of the two theorems below: the data lines printed on
    sorted input are the lines of the isolated records. *)
Lemma sorted_output (cfg : config) (lines : list string) :
  two_fields lines = true ->
  position_sorted (records lines) = true ->
  exists o,
    process_vcf cfg lines = Returned o
    /\ List.filter is_data (printed o) = map line (isolated cfg (records lines))
    /\ kept_count o = length (isolated cfg (records lines))
    /\ (kept_count o + removed_count o)%nat = length (records lines).
Proof.
  intros Htf Hsorted.
  assert (Hrefl : same_records initial initial) by done.
  destruct (run_as_records cfg lines initial initial Hrefl Htf) as (st & Hrun & Hsame).
  destruct (run_accounted cfg lines initial Htf) as (st0 & Hrun0 & Hacc).
  rewrite Hrun in Hrun0. injection Hrun0 as <-.
  exists (drain st). unfold process_vcf. rewrite Hrun. split; [done |].
  destruct (drain_same_records _ _ Hsame) as (Hp & Hk & _).
  assert (Htotal : (kept_count (drain st) + removed_count (drain st))%nat
                   = length (records lines)).
  { unfold drain. rewrite flush_counts. unfold accounted in Hacc. cbn in Hacc. lia. }
  assert (Hiso : printed (drain (fold_left (feed_record cfg) (records lines) initial))
                 = map line (isolated cfg (records lines))
                 /\ kept_count (drain (fold_left (feed_record cfg) (records lines) initial))
                    = length (isolated cfg (records lines))
                 /\ Forall (fun x => is_data (line x) = true) (isolated cfg (records lines))).
  { pose proof (records_read_back lines) as Hback.
    destruct (records lines) as [| r rs]; [by repeat split |].
    apply Forall_cons in Hback as [Hr Hrs].
    assert (Hkr : keep r = true) by (by destruct (record_of_inv _ _ Hr) as (_ & _ & _ & ?)).
    cbn [fold_left isolated].
    assert (Hfeed : feed_record cfg initial r = {| buffer := [] ++ [r]; out := out initial |}).
    { unfold feed_record. rewrite feed_spec. cbn. by destruct r; cbn in *; subst. }
    rewrite Hfeed.
    destruct (sorted_run_isolated cfg rs [] r (out initial) (Forall_nil_2 _) Hsorted) as [Hq Hc].
    cbn zeta in Hq, Hc. rewrite Hq, Hc, Hkr, length_map. cbn [out initial printed kept_count app].
    split; [done |]. split; [done |].
    apply Forall_forall. intros x Hx.
    apply list_elem_of_In, isolated_from_members in Hx.
    assert (Hxr : reads_back x).
    { destruct Hx as [<- | Hx]; [done |]. rewrite Forall_forall in Hrs.
      by apply Hrs, list_elem_of_In. }
    by apply (record_is_data (line x)). }
  destruct Hiso as (Hq & Hc & Hd).
  rewrite Hp, Hq. split; [by apply data_lines_filter |].
  split; [| exact Htotal]. by rewrite Hk.
Qed.

(** X4. On input whose same-chromosome records arrive in non-decreasing
    position order, the pass keeps exactly the records that are clear of
    both the record just before and the record just after them in the
    stream (another chromosome, or farther away than the threshold), in
    input order; every other record is counted as removed. *)
Theorem kept_when_isolated (cfg : config) (lines : list string) :
  two_fields lines = true ->
  position_sorted (records lines) = true ->
  exists o,
    process_vcf cfg lines = Returned o
    /\ List.filter is_data (printed o) = map line (isolated cfg (records lines))
    /\ kept_count o = length (isolated cfg (records lines))
    /\ removed_count o = (length (records lines) - length (isolated cfg (records lines)))%nat.
Proof.
  intros Htf Hsorted.
  destruct (sorted_output cfg lines Htf Hsorted) as (o & Hrun & Hdata & Hkept & Htotal).
  exists o. repeat split; try done. lia.
Qed.

Lemma kept_when_isolated_witness :
  let cfg := {| sdr_chrom := "Chr1_RagTag"; thresh_sdr := 35; thresh_other := 20 |} in
  let lines := ["##fileformat=VCFv4.2"%string; data_line "chr2" "10"; data_line "chr2" "50";
                data_line "chr2" "55"; data_line "chr2" "60"; data_line "Chr1_RagTag" "61";
                data_line "chr2" "100"] in
  exists o,
    process_vcf cfg lines = Returned o
    /\ List.filter is_data (printed o) = map line (isolated cfg (records lines))
    /\ kept_count o = length (isolated cfg (records lines))
    /\ removed_count o = (length (records lines) - length (isolated cfg (records lines)))%nat.
Proof. intros cfg lines. apply kept_when_isolated; reflexivity. Defined.

Lemma chained_not_isolated (cfg : config) (rs : list variant) :
  forall c : variant, chained cfg (c :: rs) = true -> isolated_from cfg false c rs = [].
Proof.
  induction rs as [| y rs IH]; intros c H; [done |].
  cbn [chained] in H. apply andb_prop in H as [Hcy H].
  apply negb_true_iff in Hcy. cbn [isolated_from]. rewrite Hcy. cbn [andb app].
  by apply IH.
Qed.

(** X5. A whole conflict chain goes: when the input is sorted as above,
    holds at least two records, and every record conflicts with the one
    just before it, the pass prints no data line and counts every record
    as removed. *)
Theorem chain_removed_entirely (cfg : config) (lines : list string) :
  two_fields lines = true ->
  position_sorted (records lines) = true ->
  chained cfg (records lines) = true ->
  (2 <= length (records lines))%nat ->
  exists o,
    process_vcf cfg lines = Returned o
    /\ List.filter is_data (printed o) = []
    /\ kept_count o = 0%nat
    /\ removed_count o = length (records lines).
Proof.
  intros Htf Hsorted Hchain Hlen.
  destruct (sorted_output cfg lines Htf Hsorted) as (o & Hrun & Hdata & Hkept & Htotal).
  assert (Hnone : isolated cfg (records lines) = []).
  { destruct (records lines) as [| c [| y rs]]; cbn in Hlen; [lia | lia |].
    cbn [isolated isolated_from]. cbn [chained] in Hchain.
    apply andb_prop in Hchain as [Hcy Hchain]. apply negb_true_iff in Hcy.
    rewrite Hcy. cbn [andb app]. by apply chained_not_isolated. }
  rewrite Hnone in Hdata, Hkept. cbn [map length] in Hdata, Hkept.
  exists o. repeat split; try done. lia.
Qed.

Lemma chain_removed_entirely_witness :
  let cfg := {| sdr_chrom := "X"; thresh_sdr := 10; thresh_other := 10 |} in
  let lines := [data_line "X" "10"; data_line "X" "20"; data_line "X" "30";
                data_line "X" "40"; data_line "X" "50"] in
  exists o,
    process_vcf cfg lines = Returned o
    /\ List.filter is_data (printed o) = []
    /\ kept_count o = 0%nat
    /\ removed_count o = length (records lines).
Proof. intros cfg lines. apply chain_removed_entirely; [reflexivity .. | vm_compute; lia]. Defined.

Lemma alternating_well_spaced (cfg : config) (rs : list variant) :
  alternating rs = true -> well_spaced cfg rs = true.
Proof.
  induction rs as [| a rs IH]; [done |]. cbn [alternating well_spaced].
  intros H. apply andb_prop in H as [Hab H]. rewrite IH, andb_true_r by done.
  destruct rs as [| b rs]; [done |]. apply negb_true_iff in Hab.
  unfold clear, conflicts. fold (same_chrom a b). by rewrite Hab.
Qed.

(** X6. Records are only ever compared within one chromosome: when no two
    consecutive records of the input lie on the same chromosome, every
    record is kept, whatever the thresholds and whatever the positions. *)
Theorem chromosomes_never_compared (cfg : config) (lines : list string) :
  two_fields lines = true ->
  alternating (records lines) = true ->
  exists o,
    process_vcf cfg lines = Returned o
    /\ List.filter is_data (printed o) = List.filter is_record lines
    /\ kept_count o = length (records lines)
    /\ removed_count o = 0%nat.
Proof.
  intros Htf Halt.
  destruct (pass_through_run cfg lines initial [] eq_refl)
    as (st & Hrun & Hrem & Hkept & Hdata & _ & _);
    [cbn; lia | constructor | constructor | by apply alternating_well_spaced | done |].
  exists (drain st). unfold process_vcf. rewrite Hrun. cbn in *.
  by rewrite Hdata, record_lines.
Qed.

Lemma chromosomes_never_compared_witness :
  let cfg := {| sdr_chrom := "Chr1_RagTag"; thresh_sdr := 1000; thresh_other := 1000 |} in
  let lines := [data_line "chr2" "10"; data_line "chr3" "10"; data_line "chr2" "11";
                data_line "chr3" "5"; data_line "Chr1_RagTag" "11"] in
  exists o,
    process_vcf cfg lines = Returned o
    /\ List.filter is_data (printed o) = List.filter is_record lines
    /\ kept_count o = length (records lines)
    /\ removed_count o = 0%nat.
Proof. intros cfg lines. apply chromosomes_never_compared; reflexivity. Defined.

(** * The counting pass *)

Lemma count_line_record (sdr : string) (t : tally) (l : string) :
  count_line sdr t l
  = match record_of l with
    | None => t
    | Some v =>
        if String.eqb (chrom v) sdr then
          {| count_sdr := S (count_sdr t);
             count_other := count_other t;
             max_pos_sdr := Z.max (max_pos_sdr t) (pos v);
             max_pos_other := max_pos_other t |}
        else
          {| count_sdr := count_sdr t;
             count_other := S (count_other t);
             max_pos_sdr := max_pos_sdr t;
             max_pos_other := Z.max (max_pos_other t) (pos v) |}
    end.
Proof.
  assert (Hmax : forall p m : Z, (if p >? m then p else m) = Z.max m p).
  { intros p m. rewrite Z.gtb_ltb. destruct (Z.ltb_spec m p); lia. }
  unfold count_line, record_of, read_fields.
  destruct (startswith_hash l); [done |].
  destruct (split_tab l) as [| f0 [| f1 fs]]; cbn; [done | done |].
  destruct (py_int f1) as [p |]; [| done]. cbn.
  rewrite !Hmax. done.
Qed.

Lemma count_lines_from (sdr : string) (lines : list string) (t : tally) :
  let t' := fold_left (count_line sdr) lines t in
  let on_sdr := List.filter (fun r => String.eqb (chrom r) sdr) (records lines) in
  let off_sdr := List.filter (fun r => negb (String.eqb (chrom r) sdr)) (records lines) in
  count_sdr t' = (count_sdr t + length on_sdr)%nat
  /\ count_other t' = (count_other t + length off_sdr)%nat
  /\ max_pos_sdr t' = fold_left Z.max (map pos on_sdr) (max_pos_sdr t)
  /\ max_pos_other t' = fold_left Z.max (map pos off_sdr) (max_pos_other t).
Proof.
  revert t. induction lines as [| l lines IH]; intros t; cbn zeta.
  - cbn. repeat split; lia.
  - cbn [fold_left]. rewrite records_cons, count_line_record.
    destruct (record_of l) as [v |]; [| apply IH].
    specialize (IH (if String.eqb (chrom v) sdr
                    then {| count_sdr := S (count_sdr t);
                            count_other := count_other t;
                            max_pos_sdr := Z.max (max_pos_sdr t) (pos v);
                            max_pos_other := max_pos_other t |}
                    else {| count_sdr := count_sdr t;
                            count_other := S (count_other t);
                            max_pos_sdr := max_pos_sdr t;
                            max_pos_other := Z.max (max_pos_other t) (pos v) |})).
    cbn zeta in IH. destruct IH as (H1 & H2 & H3 & H4). rewrite H1, H2, H3, H4.
    cbn [List.filter]. destruct (String.eqb (chrom v) sdr); cbn; repeat split; lia.
Qed.

(** X7. The counting pass counts every record of the input once, on the
    side of its chromosome, and this on every input: a data line with
    fewer than two fields is passed over here.  The two counts add up to
    the number of records. *)
Theorem tally_counts_records (sdr : string) (lines : list string) :
  let t := count_lines sdr lines in
  count_sdr t = length (List.filter (fun r => String.eqb (chrom r) sdr) (records lines))
  /\ count_other t
     = length (List.filter (fun r => negb (String.eqb (chrom r) sdr)) (records lines))
  /\ (count_sdr t + count_other t)%nat = length (records lines).
Proof.
  cbn zeta. unfold count_lines.
  destruct (count_lines_from sdr lines
              {| count_sdr := 0; count_other := 0; max_pos_sdr := 0; max_pos_other := 0 |})
    as (H1 & H2 & _).
  cbn zeta in H1, H2. rewrite H1, H2. cbn [count_sdr count_other].
  repeat split; try done.
  pose proof (filter_split_length (fun r => String.eqb (chrom r) sdr) (records lines)). lia.
Qed.

(** X8. Both passes see the same records: on input whose data lines have
    at least two fields, the kept and removed counts of the filtering pass
    add up to the two counts of the counting pass. *)
Theorem passes_agree (cfg : config) (sdr : string) (lines : list string) :
  two_fields lines = true ->
  exists o,
    process_vcf cfg lines = Returned o
    /\ (kept_count o + removed_count o)%nat
       = (count_sdr (count_lines sdr lines) + count_other (count_lines sdr lines))%nat.
Proof.
  intros Htf. destruct (run_accounted cfg lines initial Htf) as (st & Hrun & Hacc).
  exists (drain st). unfold process_vcf. rewrite Hrun. split; [done |].
  unfold drain. rewrite flush_counts. unfold accounted in Hacc. cbn in Hacc.
  unfold count_lines.
  destruct (count_lines_from sdr lines
              {| count_sdr := 0; count_other := 0; max_pos_sdr := 0; max_pos_other := 0 |})
    as (H1 & H2 & _).
  cbn zeta in H1, H2. rewrite H1, H2. cbn [count_sdr count_other].
  pose proof (filter_split_length (fun r => String.eqb (chrom r) sdr) (records lines)). lia.
Qed.

Lemma passes_agree_witness :
  let cfg := {| sdr_chrom := "Chr1_RagTag"; thresh_sdr := 35; thresh_other := 20 |} in
  let lines := ["##fileformat=VCFv4.2"%string; data_line "chr2" "10"; data_line "chr2" "15";
                data_line "Chr1_RagTag" "x"; data_line "Chr1_RagTag" "100"] in
  exists o,
    process_vcf cfg lines = Returned o
    /\ (kept_count o + removed_count o)%nat
       = (count_sdr (count_lines "Chr1_RagTag" lines)
          + count_other (count_lines "Chr1_RagTag" lines))%nat.
Proof. intros cfg lines. apply passes_agree. reflexivity. Defined.

Lemma fold_max_bounds (ps : list Z) (m : Z) :
  m <= fold_left Z.max ps m
  /\ (forall p, In p ps -> p <= fold_left Z.max ps m)
  /\ (fold_left Z.max ps m = m \/ In (fold_left Z.max ps m) ps).
Proof.
  revert m. induction ps as [| q ps IH]; intros m; cbn [fold_left].
  - split; [lia |]. split; [by intros p [] | by left].
  - destruct (IH (Z.max m q)) as (H1 & H2 & H3). split; [lia |]. split.
    + intros p [<- | Hp]; [lia | by apply H2].
    + destruct H3 as [H3 | H3]; [| right; by right].
      rewrite H3. destruct (Z.max_spec m q) as [[_ ->] | [_ ->]]; [right; by left | by left].
Qed.

(** X9. The largest position recorded for a region bounds the position of
    every record of the region, is never negative, and is either 0 or the
    position of one of those records. *)
Theorem max_pos_is_maximum (sdr : string) (lines : list string) :
  let t := count_lines sdr lines in
  (forall r, In r (records lines) ->
             pos r <= (if String.eqb (chrom r) sdr then max_pos_sdr t else max_pos_other t))
  /\ 0 <= max_pos_sdr t /\ 0 <= max_pos_other t
  /\ (max_pos_sdr t = 0
      \/ exists r, In r (records lines) /\ chrom r = sdr /\ pos r = max_pos_sdr t)
  /\ (max_pos_other t = 0
      \/ exists r, In r (records lines) /\ chrom r <> sdr /\ pos r = max_pos_other t).
Proof.
  cbn zeta. unfold count_lines.
  destruct (count_lines_from sdr lines
              {| count_sdr := 0; count_other := 0; max_pos_sdr := 0; max_pos_other := 0 |})
    as (_ & _ & H3 & H4).
  cbn zeta in H3, H4. rewrite H3, H4. cbn [max_pos_sdr max_pos_other].
  set (on_sdr := List.filter (fun r => String.eqb (chrom r) sdr) (records lines)).
  set (off_sdr := List.filter (fun r => negb (String.eqb (chrom r) sdr)) (records lines)).
  destruct (fold_max_bounds (map pos on_sdr) 0) as (A1 & A2 & A3).
  destruct (fold_max_bounds (map pos off_sdr) 0) as (B1 & B2 & B3).
  split; [| split; [done | split; [done | split]]].
  - intros r Hr. destruct (String.eqb (chrom r) sdr) eqn:Hc.
    + apply A2, in_map, filter_In. by split.
    + apply B2, in_map, filter_In. split; [done |]. by rewrite Hc.
  - destruct A3 as [A3 | A3]; [by left | right].
    apply in_map_iff in A3 as (r & Hp & Hr). apply filter_In in Hr as [Hr Hc].
    exists r. split; [done |]. split; [by apply String.eqb_eq | done].
  - destruct B3 as [B3 | B3]; [by left | right].
    apply in_map_iff in B3 as (r & Hp & Hr). apply filter_In in Hr as [Hr Hc].
    exists r. split; [done |]. split; [| done].
    apply negb_true_iff in Hc. by apply String.eqb_neq.
Qed.

(** * From the densities to the thresholds *)

Section Densities.
Local Open Scope R_scope.

Lemma density_nonneg (count : nat) (len : Z) : 0 <= density count len.
Proof.
  unfold density. destruct (Z.gtb_spec len 0) as [Hlen | Hlen]; [| lra].
  destruct (Rle_dec _ _); [lra |].
  apply Rle_mult_inv_pos; [apply pos_INR | by apply (IZR_lt 0)].
Qed.

Lemma floor_density_pos (het : R) : 0 <= het -> 0 < floor_density het.
Proof.
  intros Hhet. unfold floor_density. destruct (Req_dec_T het 0) as [-> | Hne]; lra.
Qed.

(** X10. Whatever the length table and the input, the two densities that
    reach the threshold calculator are strictly positive; and for a
    probability in (0,1) step 2 always yields thresholds, both of them at
    least the configured minimum, for the chromosome that was asked for. *)
Theorem thresholds_always_derived
    (sdr : string) (p_value : R) (min_threshold : Z)
    (chrom_lens : gmap string Z) (lines : list string) :
  0 < p_value < 1 ->
  (0 < floor_density (fst (calculate_stats lines chrom_lens sdr))
   /\ 0 < floor_density (snd (calculate_stats lines chrom_lens sdr)))
  /\ exists cfg,
      derive_thresholds sdr p_value min_threshold chrom_lens lines = Returned cfg
      /\ sdr_chrom cfg = sdr
      /\ (min_threshold <= thresh_sdr cfg)%Z
      /\ (min_threshold <= thresh_other cfg)%Z.
Proof.
  intros Hp. split.
  - unfold calculate_stats. cbn [fst snd]. split; apply floor_density_pos, density_nonneg.
  - unfold derive_thresholds.
    destruct (calculate_stats lines chrom_lens sdr) as [het_sdr het_other].
    assert (Hcalc : forall d, exists t,
               calculate_dist_threshold d p_value min_threshold = Returned t
               /\ (min_threshold <= t)%Z).
    { intros d. destruct (Rle_dec d epsilon) as [Hd | Hd].
      - exists min_threshold. rewrite threshold_below_epsilon by lra. split; [done | lia].
      - eexists. rewrite threshold_above_epsilon by (try exact Hp; lra).
        split; [reflexivity | lia]. }
    destruct (Hcalc (floor_density het_sdr)) as (t1 & -> & H1).
    destruct (Hcalc (floor_density het_other)) as (t2 & -> & H2).
    eexists. split; [reflexivity |]. by cbn.
Qed.

Lemma thresholds_always_derived_witness :
  (0 < floor_density (fst (calculate_stats [data_line "X" "10"; data_line "X" "20"]
                             {[ "X"%string := 100%Z ]} "X"))
   /\ 0 < floor_density (snd (calculate_stats [data_line "X" "10"; data_line "X" "20"]
                                {[ "X"%string := 100%Z ]} "X")))
  /\ exists cfg,
      derive_thresholds "X" (5 / 100) 10 {[ "X"%string := 100%Z ]}
        [data_line "X" "10"; data_line "X" "20"] = Returned cfg
      /\ sdr_chrom cfg = "X"%string
      /\ (10 <= thresh_sdr cfg)%Z
      /\ (10 <= thresh_other cfg)%Z.
Proof. apply thresholds_always_derived. lra. Defined.

(** X11. A larger cut-off probability never gives a smaller threshold:
    for two probabilities in (0,1) the calculator is non-decreasing in
    [p_value], at every density. *)
Theorem threshold_monotone_in_p (d p1 p2 : R) (m : Z) :
  0 < p1 -> p1 <= p2 -> p2 < 1 ->
  exists t1 t2,
    calculate_dist_threshold d p1 m = Returned t1
    /\ calculate_dist_threshold d p2 m = Returned t2
    /\ (t1 <= t2)%Z.
Proof.
  intros H1 H12 H2. destruct (Rle_dec d epsilon) as [Hd | Hd].
  - exists m, m. rewrite !threshold_below_epsilon by lra. repeat split; lia.
  - eexists _, _. rewrite !threshold_above_epsilon by lra.
    split; [reflexivity | split; [reflexivity |]].
    apply Z.max_le_compat_r, Zfloor_le.
    assert (Hln : ln (1 - p2) <= ln (1 - p1)).
    { destruct (Req_dec_T p1 p2) as [-> | Hne]; [lra |].
      left. apply ln_increasing; lra. }
    pose proof epsilon_pos as He.
    unfold Rdiv. apply Rmult_le_compat_r; [left; apply Rinv_0_lt_compat; lra | lra].
Qed.

Lemma threshold_monotone_in_p_witness :
  exists t1 t2,
    calculate_dist_threshold (1 / 100) (5 / 100) 10 = Returned t1
    /\ calculate_dist_threshold (1 / 100) (1 / 2) 10 = Returned t2
    /\ (t1 <= t2)%Z.
Proof. apply threshold_monotone_in_p; lra. Defined.

End Densities.

(** * The readers of chromosome lengths *)

Lemma fai_lengths_of_cons (c l : string) (lines : list string) :
  fai_lengths_of c (l :: lines)
  = match fai_entry l with
    | Some (c', len) =>
        if String.eqb c' c then len :: fai_lengths_of c lines else fai_lengths_of c lines
    | None => fai_lengths_of c lines
    end.
Proof.
  unfold fai_lengths_of. cbn [omap list_omap].
  destruct (fai_entry l) as [[c' len] |]; [| done]. by destruct (String.eqb c' c).
Qed.

Lemma fai_fold_lookup (c : string) (lines : list string) :
  forall m : gmap string Z,
    fold_left (fun (chrom_lens : gmap string Z) l =>
                 match fai_entry l with
                 | Some (c', len) => <[c' := len]> chrom_lens
                 | None => chrom_lens
                 end) lines m !! c
    = match last (fai_lengths_of c lines) with
      | Some len => Some len
      | None => m !! c
      end.
Proof.
  induction lines as [| l lines IH]; intros m; [done |].
  cbn [fold_left]. rewrite IH, fai_lengths_of_cons.
  destruct (fai_entry l) as [[c' len] |]; [| done].
  destruct (String.eqb_spec c' c) as [-> | Hne].
  - rewrite last_cons, lookup_insert_eq. by destruct (last (fai_lengths_of c lines)).
  - by rewrite lookup_insert_ne.
Qed.

(** X12. The table read from an index file holds, for every chromosome,
    the length of the last line that defines it, and nothing for a
    chromosome no line defines. *)
Theorem fai_last_line_wins (lines : list string) (c : string) :
  get_chrom_lengths_from_fai (Some lines) !! c = last (fai_lengths_of c lines).
Proof.
  unfold get_chrom_lengths_from_fai. rewrite fai_fold_lookup, lookup_empty.
  by destruct (last (fai_lengths_of c lines)).
Qed.

(** ** A well-formed line of the index file *)

Lemma rstrip_app (a b : string) :
  rstrip (a ++ b)
  = match rstrip b with
    | EmptyString => rstrip a
    | r => (a ++ r)%string
    end.
Proof.
  induction a as [| c a IH].
  - change (rstrip b = match rstrip b with
                       | EmptyString => EmptyString
                       | r => r
                       end).
    by destruct (rstrip b).
  - change (match rstrip (a ++ b) with
            | EmptyString => if is_space c then EmptyString else String c EmptyString
            | r => String c r
            end
            = match rstrip b with
              | EmptyString => rstrip (String c a)
              | r => String c (a ++ r)
              end).
    rewrite IH. destruct (rstrip b) as [| x y]; [done |].
    by destruct a.
Qed.

Lemma rstrip_no_space (s : string) :
  forallb (fun c => negb (is_space c)) (list_ascii_of_string s) = true -> rstrip s = s.
Proof.
  induction s as [| c s IH]; [done |]. cbn [list_ascii_of_string forallb rstrip].
  intros H. apply andb_prop in H as [Hc H]. rewrite (IH H).
  apply negb_true_iff in Hc. rewrite Hc. by destruct s.
Qed.

Lemma rstrip_all_space (s : string) : all_space s = true -> rstrip s = EmptyString.
Proof.
  induction s as [| c s IH]; [done |]. cbn [all_space rstrip].
  intros H. apply andb_prop in H as [Hc H]. by rewrite (IH H), Hc.
Qed.

Lemma rstrip_head (c : ascii) (s : string) :
  rstrip (String c s) = EmptyString \/ rstrip (String c s) = String c (rstrip s).
Proof.
  cbn [rstrip]. destruct (rstrip s); [| by right].
  destruct (is_space c); [by left | by right].
Qed.

Lemma split_tab_app (a b : string) :
  forallb (fun c => negb (Ascii.eqb c tab)) (list_ascii_of_string a) = true ->
  split_tab (a ++ String tab b) = a :: split_tab b.
Proof.
  induction a as [| c a IH]; cbn [list_ascii_of_string forallb].
  - intros _. change (split_tab (String tab b) = EmptyString :: split_tab b).
    cbn [split_tab]. by rewrite Ascii.eqb_refl.
  - intros H. apply andb_prop in H as [Hc H]. apply negb_true_iff in Hc.
    change (split_tab (String c (a ++ String tab b)) = String c a :: split_tab b).
    cbn [split_tab]. by rewrite Hc, (IH H).
Qed.

Lemma split_tab_single (a : string) :
  forallb (fun c => negb (Ascii.eqb c tab)) (list_ascii_of_string a) = true ->
  split_tab a = [a].
Proof.
  induction a as [| c a IH]; cbn [list_ascii_of_string forallb split_tab]; [done |].
  intros H. apply andb_prop in H as [Hc H]. apply negb_true_iff in Hc.
  by rewrite Hc, (IH H).
Qed.

Lemma digit_not_space (c : ascii) : is_digit c = true -> is_space c = false.
Proof.
  unfold is_digit, digit_of, is_space.
  destruct (Nat.leb_spec 48 (nat_of_ascii c)), (Nat.leb_spec (nat_of_ascii c) 57);
    cbn [andb]; try discriminate.
  intros _.
  destruct (Nat.leb_spec 9 (nat_of_ascii c)), (Nat.leb_spec (nat_of_ascii c) 13),
    (Nat.leb_spec 28 (nat_of_ascii c)), (Nat.leb_spec (nat_of_ascii c) 32);
    cbn; (done || lia).
Qed.

Lemma not_space_not_tab (c : ascii) : is_space c = false -> Ascii.eqb c tab = false.
Proof.
  intros H. apply not_true_is_false. intros Heq. apply Ascii.eqb_eq in Heq.
  subst c. discriminate.
Qed.

Lemma no_space_no_tab (s : string) :
  forallb (fun c => negb (is_space c)) (list_ascii_of_string s) = true ->
  forallb (fun c => negb (Ascii.eqb c tab)) (list_ascii_of_string s) = true.
Proof.
  induction s as [| c s IH]; [done |]. cbn [list_ascii_of_string forallb].
  intros H. apply andb_prop in H as [Hc H]. rewrite (IH H), andb_true_r.
  apply negb_true_iff in Hc. by rewrite (not_space_not_tab c Hc).
Qed.

Lemma digits_no_space (s : string) :
  forallb is_digit (list_ascii_of_string s) = true ->
  forallb (fun c => negb (is_space c)) (list_ascii_of_string s) = true.
Proof.
  induction s as [| c s IH]; [done |]. cbn [list_ascii_of_string forallb].
  intros H. apply andb_prop in H as [Hc H]. by rewrite (IH H), (digit_not_space c Hc).
Qed.

Lemma int_digits_of_digits (s : string) :
  forall acc : Z,
    forallb is_digit (list_ascii_of_string s) = true -> 0 <= acc ->
    exists n, int_digits acc s = Some n /\ 0 <= n.
Proof.
  induction s as [| c s IH]; intros acc H Hacc; cbn [int_digits]; [by exists acc |].
  cbn [list_ascii_of_string forallb] in H. apply andb_prop in H as [Hc H].
  unfold is_digit in Hc. destruct (digit_of c) as [d |] eqn:Hd; [| discriminate].
  apply IH; [done |]. unfold digit_of in Hd.
  destruct (_ && _); [| discriminate]. injection Hd as <-. lia.
Qed.

Lemma digit_not_int_space (c : ascii) : is_digit c = true -> is_int_space c = false.
Proof.
  unfold is_digit, digit_of, is_int_space.
  destruct (Nat.leb_spec 48 (nat_of_ascii c)), (Nat.leb_spec (nat_of_ascii c) 57);
    cbn [andb]; try discriminate.
  intros _.
  destruct (Nat.leb_spec 9 (nat_of_ascii c)), (Nat.leb_spec (nat_of_ascii c) 13),
    (Nat.eqb_spec (nat_of_ascii c) 32); cbn; (done || lia).
Qed.

Lemma count_digits_of_digits (s : string) :
  forallb is_digit (list_ascii_of_string s) = true -> count_digits s = String.length s.
Proof.
  induction s as [| c s IH]; [done |]. cbn [list_ascii_of_string forallb count_digits].
  intros H. apply andb_prop in H as [Hc H]. unfold is_digit in Hc.
  destruct (digit_of c); [| discriminate]. cbn [String.length]. by rewrite (IH H).
Qed.

(** A non-empty string of at most 4300 decimal digits is read by [int] as
    a non-negative number. *)
Lemma py_int_of_digits (ds : string) :
  ds <> EmptyString ->
  forallb is_digit (list_ascii_of_string ds) = true ->
  (String.length ds <= 4300)%nat ->
  exists n, py_int ds = Some n /\ 0 <= n.
Proof.
  intros Hne H Hlen.
  assert (Hlit : exists n, int_literal ds = Some n /\ 0 <= n).
  { destruct ds as [| c r]; [done |].
    cbn [list_ascii_of_string forallb] in H. apply andb_prop in H as [Hc H].
    unfold int_literal. cbn [int_lstrip]. rewrite (digit_not_int_space c Hc).
    assert (Hminus : Ascii.eqb c (ascii_of_nat 45) = false).
    { apply not_true_is_false. intros Heq. apply Ascii.eqb_eq in Heq. by subst c. }
    assert (Hplus : Ascii.eqb c (ascii_of_nat 43) = false).
    { apply not_true_is_false. intros Heq. apply Ascii.eqb_eq in Heq. by subst c. }
    rewrite Hminus, Hplus. cbn [int_unsigned].
    unfold is_digit in Hc. destruct (digit_of c) as [d |] eqn:Hd; [| discriminate].
    apply int_digits_of_digits; [done |]. unfold digit_of in Hd.
    destruct (_ && _); [| discriminate]. injection Hd as <-. lia. }
  destruct Hlit as (n & Hlit & Hpos). exists n. split; [| done].
  unfold py_int. rewrite Hlit, (count_digits_of_digits ds H).
  apply Nat.leb_le in Hlen. by rewrite Hlen.
Qed.

Lemma fai_entry_stripped (l : string) (c : ascii) (s : string) :
  strip l = String c s ->
  fai_entry l
  = let parts := split_tab (String c s) in
    if (2 <=? length parts)%nat then
      match parts !! 0%nat, parts !! 1%nat with
      | Some name, Some f1 =>
          match py_int f1 with
          | Some len => Some (name, len)
          | None => None
          end
      | _, _ => None
      end
    else None.
Proof. unfold fai_entry. by intros ->. Qed.

(** X13. A line of the index file that starts with a name free of white
    space, followed by a tab and a length in decimal digits, and then
    either only white space or a tab and further columns, defines that
    name with that length, a non-negative number, as long as the digits
    are within the 4300 that [int] accepts. *)
Theorem fai_entry_of_index_line (name ds rest : string) :
  name <> EmptyString ->
  forallb (fun c => negb (is_space c)) (list_ascii_of_string name) = true ->
  ds <> EmptyString ->
  forallb is_digit (list_ascii_of_string ds) = true ->
  (String.length ds <= 4300)%nat ->
  all_space rest = true \/ (exists r, rest = String tab r) ->
  exists len,
    py_int ds = Some len /\ 0 <= len
    /\ fai_entry (name ++ String tab (ds ++ rest)) = Some (name, len).
Proof.
  intros Hname Hns Hds Hdig Hlim Hrest.
  destruct (py_int_of_digits ds Hds Hdig Hlim) as (len & Hint & Hpos).
  exists len. split; [done |]. split; [done |].
  pose proof (no_space_no_tab name Hns) as Hnt.
  pose proof (no_space_no_tab ds (digits_no_space ds Hdig)) as Hdt.
  pose proof (rstrip_no_space ds (digits_no_space ds Hdig)) as Hrd.
  assert (Hstrip : strip (name ++ String tab (ds ++ rest)) = (name ++ String tab ds)%string
                   \/ exists y, strip (name ++ String tab (ds ++ rest))
                                = (name ++ String tab (ds ++ String tab y))%string).
  { unfold strip.
    assert (Hl : lstrip (name ++ String tab (ds ++ rest)) = (name ++ String tab (ds ++ rest))%string).
    { destruct name as [| c name]; [done |]. cbn [list_ascii_of_string forallb] in Hns.
      apply andb_prop in Hns as [Hc _]. apply negb_true_iff in Hc.
      change (lstrip (String c (name ++ String tab (ds ++ rest)))
              = String c (name ++ String tab (ds ++ rest))).
      cbn [lstrip]. by rewrite Hc. }
    rewrite Hl, rstrip_app. cbn [rstrip]. rewrite rstrip_app.
    destruct (rstrip rest) as [| x y] eqn:Hr.
    - left. rewrite Hrd. by destruct ds.
    - right. destruct Hrest as [Hall | (r & ->)].
      + by rewrite (rstrip_all_space rest Hall) in Hr.
      + destruct (rstrip_head tab r) as [H0 | H1]; [by rewrite H0 in Hr |].
        rewrite H1 in Hr. injection Hr as <- <-. exists (rstrip r). by destruct ds. }
  destruct name as [| c name]; [done |].
  destruct Hstrip as [Hs | (y & Hs)].
  - rewrite (fai_entry_stripped _ c (name ++ String tab ds) Hs).
    change (String c (name ++ String tab ds)) with (String c name ++ String tab ds)%string.
    rewrite split_tab_app, split_tab_single by done. cbn. by rewrite Hint.
  - rewrite (fai_entry_stripped _ c (name ++ String tab (ds ++ String tab y)) Hs).
    change (String c (name ++ String tab (ds ++ String tab y)))
      with (String c name ++ String tab (ds ++ String tab y))%string.
    rewrite !split_tab_app by done. cbn. by rewrite Hint.
Qed.

Lemma fai_entry_of_index_line_witness :
  exists len,
    py_int "1000" = Some len /\ 0 <= len
    /\ fai_entry ("chr1" ++ String tab ("1000" ++ String tab "6"))%string = Some ("chr1"%string, len).
Proof.
  apply (fai_entry_of_index_line "chr1" "1000" (String tab "6"));
    [discriminate | reflexivity | discriminate | reflexivity | vm_compute; lia
     | right; by eexists].
Defined.

(** ** The header of the VCF *)

Lemma prefix_contig_hash (l : string) :
  String.prefix "##contig" l = true -> startswith_hash l = true.
Proof.
  destruct l as [| a l]; [discriminate |]. cbn [String.prefix startswith_hash].
  destruct (ascii_dec _ a) as [<- | _]; [done | discriminate].
Qed.

(** X14. Only the leading [#] lines are scanned for contig declarations:
    whatever follows the first line that does not start with [#], contig
    lines included, leaves the table as the leading lines made it. *)
Theorem header_scan_stops (hdrs rest : list string) (d : string) (m : gmap string Z) :
  forallb startswith_hash hdrs = true ->
  startswith_hash d = false ->
  get_chrom_lengths_from_vcf (hdrs ++ d :: rest) m = get_chrom_lengths_from_vcf hdrs m.
Proof.
  intros Hhdrs Hd. revert m. induction hdrs as [| l hdrs IH]; intros m.
  - cbn [app get_chrom_lengths_from_vcf]. rewrite Hd.
    destruct (String.prefix "##contig" d) eqn:Hp; [| done].
    apply prefix_contig_hash in Hp. congruence.
  - cbn [forallb] in Hhdrs. apply andb_prop in Hhdrs as [Hl Hhdrs].
    cbn [app get_chrom_lengths_from_vcf]. rewrite Hl. cbn [negb].
    destruct (String.prefix "##contig" l); [| by apply IH].
    destruct (search_group "ID=" not_comma_gt l); [| by apply IH].
    destruct (search_group "length=" is_digit l) as [len |]; [| by apply IH].
    destruct (py_int len); [by apply IH | done].
Qed.

Lemma header_scan_stops_witness :
  get_chrom_lengths_from_vcf
    (["##fileformat=VCFv4.2"%string; contig_line "chr1" "1000" ">"]
       ++ data_line "chr1" "10" :: [contig_line "chr2" "500" ">"]) ∅
  = get_chrom_lengths_from_vcf
      ["##fileformat=VCFv4.2"%string; contig_line "chr1" "1000" ">"] ∅.
Proof. apply header_scan_stops; reflexivity. Defined.

Lemma after_prefix_app (p x : string) : after_prefix p (p ++ x) = Some x.
Proof.
  induction p as [| a p IH]; [done |].
  change (after_prefix (String a p) (String a (p ++ x)) = Some x).
  cbn [after_prefix]. by rewrite Ascii.eqb_refl.
Qed.

Lemma take_while_app_stop (ok : ascii -> bool) (s t : string) :
  forallb ok (list_ascii_of_string s) = true ->
  take_while ok t = EmptyString ->
  take_while ok (s ++ t) = s.
Proof.
  intros Hs Ht. induction s as [| c s IH]; [done |].
  cbn [list_ascii_of_string forallb] in Hs. apply andb_prop in Hs as [Hc Hs].
  change (take_while ok (String c (s ++ t)) = String c s).
  cbn [take_while]. by rewrite Hc, (IH Hs).
Qed.

Lemma search_group_here (p : string) (ok : ascii -> bool) (s r g : string) :
  after_prefix p s = Some r ->
  take_while ok r = g ->
  g <> EmptyString ->
  search_group p ok s = Some g.
Proof.
  intros Hp Hg Hne. destruct s; cbn [search_group]; rewrite Hp, Hg; by destruct g.
Qed.

(** The search moves on over characters that cannot start the prefix. *)
Lemma search_group_skip (a : ascii) (p : string) (ok : ascii -> bool) (q x : string) :
  forallb (fun c => negb (Ascii.eqb a c)) (list_ascii_of_string q) = true ->
  search_group (String a p) ok (q ++ x) = search_group (String a p) ok x.
Proof.
  induction q as [| c q IH]; [done |].
  cbn [list_ascii_of_string forallb]. intros H. apply andb_prop in H as [Hc H].
  apply negb_true_iff in Hc.
  change (search_group (String a p) ok (String c (q ++ x)) = search_group (String a p) ok x).
  cbn [search_group after_prefix]. rewrite Hc. by apply IH.
Qed.

(** A prefix that ends in [e] does not fit where [e] does not occur before
    a separator that is not part of the prefix. *)
Lemma after_prefix_blocked (e sep : ascii) (p : string) :
  forall s x : string,
    forallb (fun c => negb (Ascii.eqb c e)) (list_ascii_of_string s) = true ->
    forallb (fun c => negb (Ascii.eqb c sep)) (list_ascii_of_string p) = true ->
    Ascii.eqb e sep = false ->
    after_prefix (p ++ String e EmptyString) (s ++ String sep x) = None.
Proof.
  induction p as [| a p IH]; intros s x Hs Hp He.
  - destruct s as [| c s].
    + change (after_prefix (String e EmptyString) (String sep x) = None).
      cbn [after_prefix]. by rewrite He.
    + cbn [list_ascii_of_string forallb] in Hs. apply andb_prop in Hs as [Hc _].
      apply negb_true_iff in Hc. rewrite Ascii.eqb_sym in Hc.
      change (after_prefix (String e EmptyString) (String c (s ++ String sep x)) = None).
      cbn [after_prefix]. by rewrite Hc.
  - cbn [list_ascii_of_string forallb] in Hp. apply andb_prop in Hp as [Ha Hp].
    apply negb_true_iff in Ha. destruct s as [| c s].
    + change (after_prefix (String a (p ++ String e EmptyString)) (String sep x) = None).
      cbn [after_prefix]. by rewrite Ha.
    + cbn [list_ascii_of_string forallb] in Hs. apply andb_prop in Hs as [_ Hs].
      change (after_prefix (String a (p ++ String e EmptyString))
                (String c (s ++ String sep x)) = None).
      cbn [after_prefix]. destruct (Ascii.eqb a c); [by apply IH | done].
Qed.

Lemma search_group_blocked (e sep : ascii) (p : string) (ok : ascii -> bool) (s x : string) :
  forallb (fun c => negb (Ascii.eqb c e)) (list_ascii_of_string s) = true ->
  forallb (fun c => negb (Ascii.eqb c sep)) (list_ascii_of_string p) = true ->
  Ascii.eqb e sep = false ->
  search_group (p ++ String e EmptyString) ok (s ++ String sep x)
  = search_group (p ++ String e EmptyString) ok (String sep x).
Proof.
  intros Hs Hp He. induction s as [| c s IH]; [done |].
  pose proof (after_prefix_blocked e sep p (String c s) x Hs Hp He) as Hnone.
  cbn [list_ascii_of_string forallb] in Hs. apply andb_prop in Hs as [_ Hs].
  change (String c s ++ String sep x)%string with (String c (s ++ String sep x)) in *.
  destruct (p ++ String e EmptyString)%string as [| a p'] eqn:Hpe.
  { by destruct p. }
  cbn [search_group]. rewrite Hnone. rewrite <- Hpe in *. by apply IH.
Qed.

(** X15. A contig line [##contig=<ID=name,length=digits...] enters the
    name with the number the digits spell, provided the name is not empty
    and holds none of [,], [>] and [=], and what follows the digits does
    not start with a digit, and the digits are within the 4300 that [int]
    accepts. *)
Theorem contig_line_entry (name ds rest : string) (m : gmap string Z) :
  name <> EmptyString ->
  forallb (fun c => not_comma_gt c && negb (Ascii.eqb c (ascii_of_nat 61)))
          (list_ascii_of_string name) = true ->
  ds <> EmptyString ->
  forallb is_digit (list_ascii_of_string ds) = true ->
  (String.length ds <= 4300)%nat ->
  take_while is_digit rest = EmptyString ->
  exists len,
    py_int ds = Some len /\ 0 <= len
    /\ get_chrom_lengths_from_vcf [contig_line name ds rest] m = Returned (<[name := len]> m).
Proof.
  intros Hname Hchars Hds Hdig Hlim Hrest.
  destruct (py_int_of_digits ds Hds Hdig Hlim) as (len & Hint & Hpos).
  exists len. split; [done |]. split; [done |].
  assert (Hok : forallb not_comma_gt (list_ascii_of_string name) = true
                /\ forallb (fun c => negb (Ascii.eqb c (ascii_of_nat 61)))
                           (list_ascii_of_string name) = true).
  { clear -Hchars. induction name as [| c name IH]; [done |].
    cbn [list_ascii_of_string forallb] in *. apply andb_prop in Hchars as [Hc H].
    apply andb_prop in Hc as [Hc1 Hc2]. destruct (IH H) as [-> ->]. by rewrite Hc1, Hc2. }
  destruct Hok as [Hok Hneq].
  assert (Hid : search_group "ID=" not_comma_gt (contig_line name ds rest) = Some name).
  { unfold contig_line. rewrite search_group_skip by reflexivity.
    apply (search_group_here _ _ _ _ name (after_prefix_app _ _)); [| done].
    by apply take_while_app_stop. }
  assert (Hlen : search_group "length=" is_digit (contig_line name ds rest) = Some ds).
  { unfold contig_line.
    change ("##contig=<" ++ "ID=" ++ name ++ "," ++ "length=" ++ ds ++ rest)%string
      with ("##contig=<ID=" ++ name ++ String (ascii_of_nat 44) ("length=" ++ ds ++ rest))%string.
    rewrite search_group_skip by reflexivity.
    rewrite (search_group_blocked (ascii_of_nat 61) (ascii_of_nat 44) "length")
      by (done || reflexivity).
    change (search_group "length=" is_digit ("," ++ "length=" ++ ds ++ rest) = Some ds).
    rewrite (search_group_skip _ _ _ ",") by reflexivity.
    apply (search_group_here _ _ _ _ ds (after_prefix_app _ _)); [| done].
    by apply take_while_app_stop. }
  cbn [get_chrom_lengths_from_vcf]. rewrite Hid, Hlen, Hint.
  assert (Hpre : String.prefix "##contig" (contig_line name ds rest) = true) by reflexivity.
  by rewrite Hpre.
Qed.

Lemma contig_line_entry_witness :
  exists len,
    py_int "248956422" = Some len /\ 0 <= len
    /\ get_chrom_lengths_from_vcf [contig_line "chr1" "248956422" ",assembly=b38>"] ∅
       = Returned (<["chr1"%string := len]> ∅).
Proof.
  apply (contig_line_entry "chr1" "248956422" ",assembly=b38>" ∅);
    [discriminate | reflexivity | discriminate | reflexivity | vm_compute; lia | reflexivity].
Defined.

(** * A well-formed data line *)

(** X16. A data line that does not start with [#] and consists of a
    chromosome name without a tab, a tab, a position in decimal digits, a
    tab and anything else is read by both passes as the record with that
    chromosome and that position, a non-negative number, as long as the
    digits are within the 4300 that [int] accepts. *)
Theorem record_of_data_line (c ds rest : string) :
  startswith_hash c = false ->
  forallb (fun a => negb (Ascii.eqb a tab)) (list_ascii_of_string c) = true ->
  ds <> EmptyString ->
  forallb is_digit (list_ascii_of_string ds) = true ->
  (String.length ds <= 4300)%nat ->
  exists p,
    py_int ds = Some p /\ 0 <= p
    /\ record_of (c ++ String tab (ds ++ String tab rest))
       = Some {| line := (c ++ String tab (ds ++ String tab rest))%string;
                 chrom := c; pos := p; keep := true |}.
Proof.
  intros Hhash Hc Hds Hdig Hlim.
  destruct (py_int_of_digits ds Hds Hdig Hlim) as (p & Hint & Hpos).
  exists p. split; [done |]. split; [done |].
  pose proof (no_space_no_tab ds (digits_no_space ds Hdig)) as Hdt.
  assert (Hh : startswith_hash (c ++ String tab (ds ++ String tab rest)) = false).
  { destruct c as [| a c]; [done |]. exact Hhash. }
  unfold record_of, read_fields. rewrite Hh, !split_tab_app by done.
  cbn. by rewrite Hint.
Qed.

Lemma record_of_data_line_witness :
  exists p,
    py_int "12345" = Some p /\ 0 <= p
    /\ record_of ("chr2" ++ String tab ("12345" ++ String tab "rs1"))
       = Some {| line := ("chr2" ++ String tab ("12345" ++ String tab "rs1"))%string;
                 chrom := "chr2"; pos := p; keep := true |}.
Proof.
  apply (record_of_data_line "chr2" "12345" "rs1");
    [reflexivity | reflexivity | discriminate | reflexivity | vm_compute; lia].
Defined.

(** * The background length *)

(** X17. The length of the designated chromosome never counts towards the
    background: whatever length the table gives it, the background length
    is that of the table without it. *)
Theorem background_excludes_sdr (chrom_lens : gmap string Z) (sdr : string) (len : Z) :
  length_total_other (<[sdr := len]> chrom_lens) sdr
  = length_total_other (delete sdr chrom_lens) sdr.
Proof.
  unfold length_total_other. rewrite <- insert_delete_eq.
  rewrite map_fold_insert_L.
  - by rewrite decide_True.
  - intros j1 j2 z1 z2 y _ _ _. repeat case_decide; lia.
  - apply lookup_delete_eq.
Qed.

(** * Larger thresholds *)

Lemma clear_antitone (cfg1 cfg2 : config) (a b : variant) :
  sdr_chrom cfg1 = sdr_chrom cfg2 ->
  thresh_sdr cfg1 <= thresh_sdr cfg2 ->
  thresh_other cfg1 <= thresh_other cfg2 ->
  clear cfg2 a b = true -> clear cfg1 a b = true.
Proof.
  intros Hs H1 H2. unfold clear, conflicts, current_thresh. rewrite Hs.
  destruct (String.eqb (chrom a) (chrom b)); [| done]. cbn [andb].
  rewrite !negb_involutive, !Z.gtb_ltb. intros H. apply Z.ltb_lt in H. apply Z.ltb_lt.
  destruct (String.eqb (chrom b) (sdr_chrom cfg2)); lia.
Qed.

Lemma isolated_from_antitone (cfg1 cfg2 : config) (rs : list variant) :
  sdr_chrom cfg1 = sdr_chrom cfg2 ->
  thresh_sdr cfg1 <= thresh_sdr cfg2 ->
  thresh_other cfg1 <= thresh_other cfg2 ->
  forall (b1 b2 : bool) (c : variant),
    (b2 = true -> b1 = true) ->
    sublist (isolated_from cfg2 b2 c rs) (isolated_from cfg1 b1 c rs).
Proof.
  intros Hs H1 H2. induction rs as [| y rs IH]; intros b1 b2 c Hb; cbn [isolated_from].
  - destruct b2; [by rewrite Hb | apply sublist_nil_l].
  - pose proof (clear_antitone cfg1 cfg2 c y Hs H1 H2) as Hc.
    apply sublist_app; [| by apply IH].
    destruct b2; cbn [andb]; [| apply sublist_nil_l].
    rewrite Hb by done. cbn [andb].
    destruct (clear cfg2 c y); [by rewrite Hc | apply sublist_nil_l].
Qed.

(** X18. Raising the thresholds never saves a record: on input sorted as
    above, the data lines printed under the larger thresholds are among
    those printed under the smaller ones, in the same order. *)
Theorem larger_threshold_keeps_less (cfg1 cfg2 : config) (lines : list string) :
  two_fields lines = true ->
  position_sorted (records lines) = true ->
  sdr_chrom cfg1 = sdr_chrom cfg2 ->
  thresh_sdr cfg1 <= thresh_sdr cfg2 ->
  thresh_other cfg1 <= thresh_other cfg2 ->
  exists o1 o2,
    process_vcf cfg1 lines = Returned o1
    /\ process_vcf cfg2 lines = Returned o2
    /\ sublist (List.filter is_data (printed o2)) (List.filter is_data (printed o1))
    /\ (kept_count o2 <= kept_count o1)%nat.
Proof.
  intros Htf Hsorted Hs H1 H2.
  destruct (sorted_output cfg1 lines Htf Hsorted) as (o1 & Hrun1 & Hd1 & Hk1 & _).
  destruct (sorted_output cfg2 lines Htf Hsorted) as (o2 & Hrun2 & Hd2 & Hk2 & _).
  exists o1, o2. split; [done |]. split; [done |].
  assert (Hsub : sublist (isolated cfg2 (records lines)) (isolated cfg1 (records lines))).
  { destruct (records lines) as [| c rs]; [done |]. cbn [isolated].
    by apply isolated_from_antitone. }
  rewrite Hd1, Hd2, Hk1, Hk2. split; [by apply sublist_map | by apply sublist_length].
Qed.

Lemma larger_threshold_keeps_less_witness :
  let cfg1 := {| sdr_chrom := "Chr1_RagTag"; thresh_sdr := 35; thresh_other := 20 |} in
  let cfg2 := {| sdr_chrom := "Chr1_RagTag"; thresh_sdr := 35; thresh_other := 45 |} in
  let lines := [data_line "chr2" "10"; data_line "chr2" "50"; data_line "chr2" "55";
                data_line "chr2" "100"; data_line "chr3" "1"] in
  exists o1 o2,
    process_vcf cfg1 lines = Returned o1
    /\ process_vcf cfg2 lines = Returned o2
    /\ sublist (List.filter is_data (printed o2)) (List.filter is_data (printed o1))
    /\ (kept_count o2 <= kept_count o1)%nat.
Proof.
  intros cfg1 cfg2 lines.
  apply larger_threshold_keeps_less; [reflexivity | reflexivity | reflexivity | | ];
    cbn; lia.
Defined.
